(** * Task-management backend: ownership guard, partial update, import,
      analytics engine and background worker, embedded from the Go sources.

    Conventions of the embedding.
    - [time.Time] is an instant counted in microseconds (the resolution of
      the TIMESTAMP columns) from Go's zero time, in UTC: [IsZero t] is
      [t = 0], [AddDate(0,0,d)] adds [d] days of 24 hours.
    - Go's [int] counters are [Z]: every counter of the analytics loop is
      bounded by [len(tasks)], itself an [int], so none can wrap.
    - [float64] quantities are exact rationals ([Q]); rounding is not
      modelled.
    - A Go result pair [(T, error)] is [result T]; the value returned next to
      a non-nil error is always the zero value in this code base.
    - Logging and Prometheus counters do not influence control flow and are
      left out. *)

From Stdlib Require Import ZArith QArith.
From stdpp Require Import base option list strings gmap fin_maps sorting.

Local Open Scope string_scope.
Local Open Scope Z_scope.

(** ** Time *)

Definition hour : Z := 3600 * 1000000.
Definition day : Z := 24 * hour.

(** [t.AddDate(0, 0, d)] *)
Definition AddDate (t : Z) (days : Z) : Z := t + days * day.

(** [d.Hours()] of a duration *)
Definition Hours (d : Z) : Q := d # (Z.to_pos hour).

(** the calendar day of an instant, as the SQL cast [::date] takes it *)
Definition date_of (t : Z) : Z := t / day.

(** ** internal/domain/models *)

Definition StatusPending : string := "pending".
Definition StatusInProgress : string := "in_progress".
Definition StatusDone : string := "done".

Definition PriorityLow : string := "low".
Definition PriorityMedium : string := "medium".
Definition PriorityHigh : string := "high".

Module Task.
Record t := mk {
  ID : string;
  Title : string;
  Description : string;
  Status : string;
  Priority : string;
  UserID : string;
  DueDate : Z;
  CreatedAt : Z;
  UpdatedAt : Z;
  CompletedAt : option Z
}.

(** [models.Task{}] *)
Definition zero : t := mk "" "" "" "" "" "" 0 0 0 None.

Definition set_ID (v : string) (x : t) : t :=
  mk v (Title x) (Description x) (Status x) (Priority x) (UserID x)
     (DueDate x) (CreatedAt x) (UpdatedAt x) (CompletedAt x).
Definition set_Title (v : string) (x : t) : t :=
  mk (ID x) v (Description x) (Status x) (Priority x) (UserID x)
     (DueDate x) (CreatedAt x) (UpdatedAt x) (CompletedAt x).
Definition set_Description (v : string) (x : t) : t :=
  mk (ID x) (Title x) v (Status x) (Priority x) (UserID x)
     (DueDate x) (CreatedAt x) (UpdatedAt x) (CompletedAt x).
Definition set_Status (v : string) (x : t) : t :=
  mk (ID x) (Title x) (Description x) v (Priority x) (UserID x)
     (DueDate x) (CreatedAt x) (UpdatedAt x) (CompletedAt x).
Definition set_Priority (v : string) (x : t) : t :=
  mk (ID x) (Title x) (Description x) (Status x) v (UserID x)
     (DueDate x) (CreatedAt x) (UpdatedAt x) (CompletedAt x).
Definition set_UserID (v : string) (x : t) : t :=
  mk (ID x) (Title x) (Description x) (Status x) (Priority x) v
     (DueDate x) (CreatedAt x) (UpdatedAt x) (CompletedAt x).
Definition set_DueDate (v : Z) (x : t) : t :=
  mk (ID x) (Title x) (Description x) (Status x) (Priority x) (UserID x)
     v (CreatedAt x) (UpdatedAt x) (CompletedAt x).
Definition set_CreatedAt (v : Z) (x : t) : t :=
  mk (ID x) (Title x) (Description x) (Status x) (Priority x) (UserID x)
     (DueDate x) v (UpdatedAt x) (CompletedAt x).
Definition set_UpdatedAt (v : Z) (x : t) : t :=
  mk (ID x) (Title x) (Description x) (Status x) (Priority x) (UserID x)
     (DueDate x) (CreatedAt x) v (CompletedAt x).
Definition set_CompletedAt (v : option Z) (x : t) : t :=
  mk (ID x) (Title x) (Description x) (Status x) (Priority x) (UserID x)
     (DueDate x) (CreatedAt x) (UpdatedAt x) v.
End Task.

Module TaskFilters.
Record t := mk {
  Status : string;
  Priority : string;
  DueDate : option Z;
  UserID : string;
  Search : string
}.

(** [models.TaskFilters{}] *)
Definition zero : t := mk "" "" None "" "".
End TaskFilters.

Module Analytics.
Record t := mk {
  StatusCount : gmap string Z;
  PriorityCount : gmap string Z;
  AvgCompletionTime : Q;
  OnTimeCompletionRate : Q;
  OverdueTasks : Z;
  Period : string;
  GeneratedAt : Z
}.
End Analytics.

Module CachedAnalytics.
Record t := mk {
  UserID : string;
  Period : string;
  Analytics : Analytics.t;
  CachedAt : Z
}.
End CachedAnalytics.

(** ** Errors and results *)

Inductive error :=
  | ErrTaskNotFound        (* service.ErrTaskNotFound *)
  | ErrInvalidTaskData     (* service.ErrInvalidTaskData *)
  | ErrAccessDenied        (* service.ErrAccessDenied *)
  | ErrDriver              (* a failure of the connection to the store or cache *)
  | ErrConstraint          (* a constraint of the schema rejected the statement *)
  | ErrNew (msg : string)  (* errors.New(msg): a value of its own *)
  | ErrWrap (msg : string) (cause : error).  (* fmt.Errorf(msg + ": %w", cause) *)

Inductive result (A : Type) :=
  | Ok (a : A)
  | Err (e : error).
Arguments Ok {A} a.
Arguments Err {A} e.

Definition is_Err {A} (r : result A) : bool :=
  match r with Ok _ => false | Err _ => true end.

(** ** The process environment: store, cache, clock and UUID source *)

Record DB := mkDB {
  db_up : bool;            (* the connection answers *)
  db_calls : nat;          (* statements sent so far *)
  db_tasks : list Task.t   (* rows of table tasks *)
}.

Record Redis := mkRedis {
  redis_up : bool;
  redis_keys : gmap string (CachedAnalytics.t * Z)  (* value, expiry instant *)
}.

Record World := mkWorld {
  db : DB;
  redis : Redis;
  clock : nat -> Z;        (* successive readings of time.Now() *)
  ticks : nat;             (* readings taken so far *)
  uuids : nat -> string;   (* successive values of uuid.New().String() *)
  drawn : nat
}.

Definition set_db (d : DB) (w : World) : World :=
  mkWorld d (redis w) (clock w) (ticks w) (uuids w) (drawn w).
Definition set_redis (r : Redis) (w : World) : World :=
  mkWorld (db w) r (clock w) (ticks w) (uuids w) (drawn w).

(** A computation over the environment that returns a Go result. *)
Definition M (A : Type) : Type := World -> result A * World.

Definition ret {A} (a : A) : M A := fun w => (Ok a, w).
Definition fail {A} (e : error) : M A := fun w => (Err e, w).

(** run [m], hand its result (value or error) to [k] *)
Definition bind {A B} (m : M A) (k : result A -> M B) : M B :=
  fun w => let (r, w1) := m w in k r w1.

(** [x, err := m; if err != nil { return zero, err }; k x] *)
Definition try {A B} (m : M A) (k : A -> M B) : M B :=
  bind m (fun r => match r with Ok a => k a | Err e => fail e end).

Notation "'let?' x ':=' m 'in' k" := (bind m (fun x => k))
  (at level 10, x name, m at level 100, k at level 200, only parsing).
Notation "'let*' x ':=' m 'in' k" := (try m (fun x => k))
  (at level 10, x name, m at level 100, k at level 200, only parsing).

(** [time.Now()] *)
Definition time_Now : M Z := fun w =>
  (Ok (clock w (ticks w)),
   mkWorld (db w) (redis w) (clock w) (S (ticks w)) (uuids w) (drawn w)).

(** [uuid.New().String()] *)
Definition uuid_New : M string := fun w =>
  (Ok (uuids w (drawn w)),
   mkWorld (db w) (redis w) (clock w) (ticks w) (uuids w) (S (drawn w))).

(** ** internal/domain/repository: the interfaces *)

Module repository.
Class TaskRepository := {
  Create : Task.t -> M unit;
  GetByID : string -> M Task.t;
  GetAll : TaskFilters.t -> M (list Task.t);
  Update : Task.t -> M unit;
  Delete : string -> M unit
}.

(** [GetUserAnalytics] answers [Ok None] for a miss ([nil, nil]). *)
Class AnalyticsCache := {
  GetUserAnalytics : string -> string -> M (option CachedAnalytics.t);
  SetUserAnalytics : CachedAnalytics.t -> M unit;
  InvalidateUserAnalytics : string -> M unit
}.
End repository.

(** ** The PostgreSQL task repository *)

Module postgres.
Section Repo.
(** PostgreSQL's [text ILIKE pattern] operator *)
Variable ilike : string -> string -> bool.

(** the enumerated column types of the schema *)
Definition task_status (s : string) : bool :=
  bool_decide (s = StatusPending) || bool_decide (s = StatusInProgress)
  || bool_decide (s = StatusDone).
Definition task_priority (s : string) : bool :=
  bool_decide (s = PriorityLow) || bool_decide (s = PriorityMedium)
  || bool_decide (s = PriorityHigh).

(** position of a priority in its enumeration, which ORDER BY compares *)
Definition priority_rank (p : string) : Z :=
  if bool_decide (p = PriorityLow) then 0
  else if bool_decide (p = PriorityMedium) then 1 else 2.

(** one statement reaches the server *)
Definition sent (d : DB) : DB := mkDB (db_up d) (S (db_calls d)) (db_tasks d).
Definition with_rows (rows : list Task.t) (d : DB) : DB :=
  mkDB (db_up d) (db_calls d) rows.

(** INSERT INTO tasks (id, title, description, status, priority, user_id,
    due_date, created_at, updated_at): completed_at is not in the column
    list and takes its default, NULL. *)
Definition inserted_row (task : Task.t) : Task.t := Task.set_CompletedAt None task.

Definition Create (task : Task.t) : M unit := fun w =>
  let d := sent (db w) in
  if negb (db_up d) then
    (Err (ErrWrap "failed to create task" ErrDriver), set_db d w)
  else if existsb (fun r => bool_decide (Task.ID r = Task.ID task)) (db_tasks d)
          || negb (task_status (Task.Status task))
          || negb (task_priority (Task.Priority task)) then
    (Err (ErrWrap "failed to create task" ErrConstraint), set_db d w)
  else (Ok tt, set_db (with_rows (db_tasks d ++ [inserted_row task]) d) w).

(** UPDATE tasks SET title, description, status, priority, due_date,
    updated_at WHERE id = $7 AND user_id = $8; a status or priority that is
    no label of its enum is refused when the parameters are bound, before
    any row is looked at. *)
Definition update_matches (task r : Task.t) : bool :=
  bool_decide (Task.ID r = Task.ID task) && bool_decide (Task.UserID r = Task.UserID task).

Definition updated_row (task r : Task.t) : Task.t :=
  Task.mk (Task.ID r) (Task.Title task) (Task.Description task) (Task.Status task)
          (Task.Priority task) (Task.UserID r) (Task.DueDate task) (Task.CreatedAt r)
          (Task.UpdatedAt task) (Task.CompletedAt r).

Definition Update (task : Task.t) : M unit := fun w =>
  let d := sent (db w) in
  if negb (db_up d) then
    (Err (ErrWrap "failed to update task" ErrDriver), set_db d w)
  else if negb (task_status (Task.Status task))
          || negb (task_priority (Task.Priority task)) then
    (Err (ErrWrap "failed to update task" ErrConstraint), set_db d w)
  else if negb (existsb (update_matches task) (db_tasks d)) then
    (Err (ErrNew "task not found or not owned by user"), set_db d w)
  else
    (Ok tt,
     set_db (with_rows
               (map (fun r => if update_matches task r then updated_row task r else r)
                    (db_tasks d)) d) w).

(** DELETE FROM tasks WHERE id = $1 *)
Definition Delete (id : string) : M unit := fun w =>
  let d := sent (db w) in
  if negb (db_up d) then
    (Err (ErrWrap "failed to delete task" ErrDriver), set_db d w)
  else if negb (existsb (fun r => bool_decide (Task.ID r = id)) (db_tasks d)) then
    (Err (ErrNew "task not found"), set_db d w)
  else
    (Ok tt,
     set_db (with_rows (filter (fun r => Task.ID r <> id) (db_tasks d)) d) w).

(** SELECT ... FROM tasks WHERE id = $1, first row scanned *)
Definition GetByID (id : string) : M Task.t := fun w =>
  let d := sent (db w) in
  if negb (db_up d) then
    (Err (ErrWrap "failed to get task" ErrDriver), set_db d w)
  else match find (fun r => bool_decide (Task.ID r = id)) (db_tasks d) with
       | None => (Err (ErrNew "task not found"), set_db d w)   (* sql.ErrNoRows *)
       | Some r => (Ok r, set_db d w)
       end.

(** the WHERE clause built by GetAll: user_id = $1 always, the other
    conditions when the filter field is set *)
Definition where_clause (filters : TaskFilters.t) (r : Task.t) : bool :=
  bool_decide (Task.UserID r = TaskFilters.UserID filters)
  && (if bool_decide (TaskFilters.Status filters = "") then true
      else bool_decide (Task.Status r = TaskFilters.Status filters))
  && (if bool_decide (TaskFilters.Priority filters = "") then true
      else bool_decide (Task.Priority r = TaskFilters.Priority filters))
  && (match TaskFilters.DueDate filters with
      | None => true
      | Some d => bool_decide (date_of (Task.DueDate r) = date_of d)
      end)
  && (if bool_decide (TaskFilters.Search filters = "") then true
      else let pattern := "%" +:+ TaskFilters.Search filters +:+ "%" in
           ilike (Task.Title r) pattern || ilike (Task.Description r) pattern).

(** ORDER BY due_date ASC, priority DESC, created_at DESC *)
Definition order_by (a b : Task.t) : bool :=
  (Task.DueDate a <? Task.DueDate b)
  || ((Task.DueDate a =? Task.DueDate b)
      && ((priority_rank (Task.Priority b) <? priority_rank (Task.Priority a))
          || ((priority_rank (Task.Priority a) =? priority_rank (Task.Priority b))
              && (Task.CreatedAt b <=? Task.CreatedAt a)))).

(** status = $n and priority = $n compare enum columns: the parameter of
    a filter that is set is read as a label of the enum, and the server
    refuses the query when it is none (invalid input value for enum). *)
Definition enum_parameters (filters : TaskFilters.t) : bool :=
  (bool_decide (TaskFilters.Status filters = "")
   || task_status (TaskFilters.Status filters))
  && (bool_decide (TaskFilters.Priority filters = "")
      || task_priority (TaskFilters.Priority filters)).

Definition GetAll (filters : TaskFilters.t) : M (list Task.t) := fun w =>
  let d := sent (db w) in
  if negb (db_up d) then
    (Err (ErrWrap "failed to query tasks" ErrDriver), set_db d w)
  else if negb (enum_parameters filters) then
    (Err (ErrWrap "failed to query tasks" ErrConstraint), set_db d w)
  else
    (Ok (merge_sort (fun a b => Is_true (order_by a b))
                    (filter (fun r => Is_true (where_clause filters r)) (db_tasks d))),
     set_db d w).

#[export] Instance TaskRepository : repository.TaskRepository := {|
  repository.Create := Create;
  repository.GetByID := GetByID;
  repository.GetAll := GetAll;
  repository.Update := Update;
  repository.Delete := Delete
|}.
End Repo.
End postgres.

(** ** internal/cache: the Redis analytics cache *)

Module cache.
Definition analyticsTTL : Z := 6 * hour.

(** [fmt.Sprintf("analytics:%s:%s", userID, period)] *)
Definition key (userID period : string) : string :=
  "analytics:" +:+ userID +:+ ":" +:+ period.

(** the server's own clock: the instant the next reading would give *)
Definition server_time (w : World) : Z := clock w (ticks w).

Definition GetUserAnalytics (userID period : string) : M (option CachedAnalytics.t) :=
  fun w =>
    if negb (redis_up (redis w)) then
      (Err (ErrWrap "failed to get analytics from cache" ErrDriver), w)
    else match redis_keys (redis w) !! key userID period with
         | Some (c, expiry) =>
             if server_time w <? expiry then (Ok (Some c), w)
             else (Ok None, w)                      (* expired: redis.Nil *)
         | None => (Ok None, w)                     (* redis.Nil *)
         end.

Definition SetUserAnalytics (analytics : CachedAnalytics.t) : M unit := fun w =>
  if negb (redis_up (redis w)) then
    (Err (ErrWrap "failed to set analytics in cache" ErrDriver), w)
  else
    (Ok tt,
     set_redis
       (mkRedis (redis_up (redis w))
          (<[key (CachedAnalytics.UserID analytics) (CachedAnalytics.Period analytics)
             := (analytics, server_time w + analyticsTTL)]> (redis_keys (redis w))))
       w).

(** SCAN with the pattern analytics:{userID}:* and DEL of every key found;
    a userID is taken to hold no glob character. *)
Definition InvalidateUserAnalytics (userID : string) : M unit := fun w =>
  if negb (redis_up (redis w)) then
    (Err (ErrWrap "failed to scan analytics keys" ErrDriver), w)
  else
    (Ok tt,
     set_redis
       (mkRedis (redis_up (redis w))
          (filter (fun kv : string * (CachedAnalytics.t * Z) =>
                     ~ Is_true (String.prefix (key userID "") kv.1))
                  (redis_keys (redis w))))
       w).

#[export] Instance RedisCache : repository.AnalyticsCache := {|
  repository.GetUserAnalytics := GetUserAnalytics;
  repository.SetUserAnalytics := SetUserAnalytics;
  repository.InvalidateUserAnalytics := InvalidateUserAnalytics
|}.
End cache.

(** ** internal/service: TaskServiceImpl *)

Module service.
Section TaskServiceImpl.
Context {repo : repository.TaskRepository} {cache : repository.AnalyticsCache}.

Definition Create (task : Task.t) : M Task.t :=
  if bool_decide (Task.Title task = "") then fail ErrInvalidTaskData
  else
    let task := if bool_decide (Task.Status task = "")
                then Task.set_Status StatusPending task else task in
    let task := if bool_decide (Task.Priority task = "")
                then Task.set_Priority PriorityMedium task else task in
    let* task := (if Task.DueDate task =? 0
                  then let* now := time_Now in
                       ret (Task.set_DueDate (AddDate now 1) task)
                  else ret task) in
    let* _ := repository.Create task in
    ret task.

Definition GetByID (id userID : string) : M Task.t :=
  let? r := repository.GetByID id in
  match r with
  | Err _ => fail ErrTaskNotFound
  | Ok task =>
      if bool_decide (Task.UserID task <> userID) then fail ErrAccessDenied
      else ret task
  end.

Definition GetAll (userID : string) (filters : TaskFilters.t) : M (list Task.t) :=
  repository.GetAll filters.

(** the completed timestamp is missing: a nil pointer or the zero time *)
Definition not_completed (c : option Z) : bool :=
  match c with None => true | Some t => t =? 0 end.

(** lines 133-162 of Update: the request [task] is folded into the row
    read from the store *)
Definition patch (task existingTask : Task.t) : M Task.t :=
  let existingTask :=
    if bool_decide (Task.Title task <> "")
    then Task.set_Title (Task.Title task) existingTask else existingTask in
  let existingTask :=
    if bool_decide (Task.Description task <> Task.Description existingTask)
    then Task.set_Description (Task.Description task) existingTask
    else existingTask in
  let* existingTask :=
    (if bool_decide (Task.Status task <> "")
     then
       let existingTask := Task.set_Status (Task.Status task) existingTask in
       if bool_decide (Task.Status task = StatusDone)
          && not_completed (Task.CompletedAt existingTask)
       then let* now := time_Now in
            ret (Task.set_CompletedAt (Some now) existingTask)
       else ret existingTask
     else ret existingTask) in
  let existingTask :=
    if bool_decide (Task.Priority task <> "")
    then Task.set_Priority (Task.Priority task) existingTask else existingTask in
  let existingTask :=
    if negb (Task.DueDate task =? 0)
    then Task.set_DueDate (Task.DueDate task) existingTask else existingTask in
  let* now := time_Now in
  ret (Task.set_UpdatedAt now existingTask).

Definition Update (id userID : string) (task : Task.t) : M Task.t :=
  let? r := repository.GetByID id in
  match r with
  | Err _ => fail ErrTaskNotFound
  | Ok existingTask =>
      if bool_decide (Task.UserID existingTask <> userID) then fail ErrAccessDenied
      else
        let* existingTask := patch task existingTask in
        let* _ := repository.Update existingTask in
        ret existingTask
  end.

Definition Delete (taskID userID : string) : M unit :=
  let* task := GetByID taskID userID in
  if bool_decide (Task.UserID task <> userID) then fail ErrAccessDenied
  else repository.Delete taskID.

(** one round of the loop of Import *)
Definition import_one (userID : string) (task : Task.t) : M unit :=
  let task := Task.set_UserID userID task in
  let* id := uuid_New in
  let task := Task.set_ID id task in
  let* created := time_Now in
  let task := Task.set_CreatedAt created task in
  let* updated := time_Now in
  let task := Task.set_UpdatedAt updated task in
  let task := if bool_decide (Task.Status task = "")
              then Task.set_Status StatusPending task else task in
  let task := if bool_decide (Task.Priority task = "")
              then Task.set_Priority PriorityMedium task else task in
  let* task := (if Task.DueDate task =? 0
                then let* now := time_Now in
                     ret (Task.set_DueDate (AddDate now 1) task)
                else ret task) in
  repository.Create task.

Fixpoint Import (userID : string) (tasks : list Task.t) : M unit :=
  match tasks with
  | [] => ret tt
  | task :: rest =>
      let* _ := import_one userID task in
      Import userID rest
  end.

Definition Export (userID : string) : M (list Task.t) :=
  repository.GetAll (TaskFilters.mk "" "" None userID "").

(** the accumulators of the analytics loop *)
Record counters := mkCounters {
  statusCount : gmap string Z;
  priorityCount : gmap string Z;
  completedTasks : Z;
  overdueTasks : Z;
  onTimeTasks : Z;
  totalCompletionTime : Q
}.

(** [m[k]++] on a Go map *)
Definition incr (k : string) (m : gmap string Z) : gmap string Z :=
  <[k := default 0 (m !! k) + 1]> m.

(** the body of [for _, task := range tasks] in GetUserAnalytics *)
Definition count_task (task : Task.t) (c : counters) : M counters :=
  let sc := incr (Task.Status task) (statusCount c) in
  let pc := incr (Task.Priority task) (priorityCount c) in
  let '(completed, onTime, total) :=
    match Task.CompletedAt task with
    | Some completedAt =>
        if bool_decide (Task.Status task = StatusDone) then
          (completedTasks c + 1,
           (if completedAt <? Task.DueDate task
            then onTimeTasks c + 1 else onTimeTasks c),
           (totalCompletionTime c + Hours (completedAt - Task.CreatedAt task))%Q)
        else (completedTasks c, onTimeTasks c, totalCompletionTime c)
    | None => (completedTasks c, onTimeTasks c, totalCompletionTime c)
    end in
  if bool_decide (Task.Status task <> StatusDone) then
    let* now := time_Now in
    ret (mkCounters sc pc completed
           (if Task.DueDate task <? now then overdueTasks c + 1 else overdueTasks c)
           onTime total)
  else ret (mkCounters sc pc completed (overdueTasks c) onTime total).

Fixpoint count_tasks (tasks : list Task.t) (c : counters) : M counters :=
  match tasks with
  | [] => ret c
  | task :: rest =>
      let* c := count_task task c in
      count_tasks rest c
  end.

Definition no_counts : counters := mkCounters ∅ ∅ 0 0 0 0%Q.

(** lines 336-346: the snapshot made of the final counters *)
Definition snapshot (period : string) (generatedAt : Z) (c : counters) : Analytics.t :=
  Analytics.mk (statusCount c) (priorityCount c)
    (if 0 <? completedTasks c
     then (totalCompletionTime c / inject_Z (completedTasks c))%Q else 0%Q)
    (if 0 <? completedTasks c
     then (inject_Z (onTimeTasks c) / inject_Z (completedTasks c) * 100)%Q else 0%Q)
    (overdueTasks c) period generatedAt.

(** lines 302-346 of GetUserAnalytics: the snapshot of a list of tasks *)
Definition compute (period : string) (tasks : list Task.t) : M Analytics.t :=
  let* generatedAt := time_Now in
  let* c := count_tasks tasks no_counts in
  ret (snapshot period generatedAt c).

Definition GetUserAnalytics (userID period : string) : M Analytics.t :=
  let? cached := repository.GetUserAnalytics userID period in
  match cached with
  | Ok (Some cachedData) => ret (CachedAnalytics.Analytics cachedData)
  | _ =>
      let* tasks := repository.GetAll (TaskFilters.mk "" "" None userID "") in
      let* analytics := compute period tasks in
      let* cachedAt := time_Now in
      let? _ := repository.SetUserAnalytics
                  (CachedAnalytics.mk userID period analytics cachedAt) in
      ret analytics
  end.

Definition GetAnalytics (userID period : string) : M Analytics.t :=
  GetUserAnalytics userID period.

Definition CreateTask (userID : string) (task : Task.t) : M Task.t :=
  Create (Task.set_UserID userID task).
Definition GetUserTask (userID taskID : string) : M Task.t := GetByID taskID userID.
Definition GetUserTasks (userID : string) (filters : TaskFilters.t) : M (list Task.t) :=
  GetAll userID filters.
Definition UpdateUserTask (userID : string) (task : Task.t) : M Task.t :=
  Update (Task.ID task) userID task.
Definition DeleteUserTask (userID taskID : string) : M unit := Delete taskID userID.
Definition ImportTasks (userID : string) (tasks : list Task.t) : M unit :=
  Import userID tasks.
Definition ExportUserTasks (userID : string) : M (list Task.t) := Export userID.

(** The user ids are the keys of a Go map, ranged over in an order the
    language leaves open; the model takes the order of [elements]. *)
Definition GetActiveUsers : M (list string) :=
  let* tasks := repository.GetAll TaskFilters.zero in
  let userIDs : gset string := list_to_set (map Task.UserID tasks) in
  ret (elements userIDs).
End TaskServiceImpl.
End service.

(** ** internal/worker: BackgroundWorker *)

Module worker.
Section BackgroundWorker.
Context {repo : repository.TaskRepository} {cache : repository.AnalyticsCache}.

(** [for _, task := range tasks]: a failed delete is logged and skipped *)
Fixpoint delete_each (tasks : list Task.t) : M unit :=
  match tasks with
  | [] => ret tt
  | task :: rest =>
      let? _ := service.Delete (Task.ID task) (Task.UserID task) in
      delete_each rest
  end.

Definition cleanupExpiredTasks : M unit :=
  let* now := time_Now in
  let expiredDate := AddDate now (-7) in
  let filters := TaskFilters.mk "" "" (Some expiredDate) "" "" in
  let* tasks := service.GetAll "" filters in
  delete_each tasks.

Definition periods : list string := ["day"; "week"; "month"].

(** the body of the inner loop of generateAnalytics *)
Definition refresh (userID period : string) : M unit :=
  let? r := service.GetAnalytics userID period in
  match r with
  | Err _ => ret tt                                   (* logged; continue *)
  | Ok analytics =>
      let* cachedAt := time_Now in
      let? _ := repository.SetUserAnalytics
                  (CachedAnalytics.mk userID period analytics cachedAt) in
      ret tt
  end.

Fixpoint refresh_periods (userID : string) (ps : list string) : M unit :=
  match ps with
  | [] => ret tt
  | period :: rest =>
      let? _ := refresh userID period in
      refresh_periods userID rest
  end.

Fixpoint refresh_users (users : list string) : M unit :=
  match users with
  | [] => ret tt
  | userID :: rest =>
      let? _ := refresh_periods userID periods in
      refresh_users rest
  end.

Definition generateAnalytics : M unit :=
  let* users := service.GetActiveUsers in
  refresh_users users.
End BackgroundWorker.
End worker.

(** ** internal/handler: TaskHandler *)

Module handler.
(** what a handler reads of the gin context *)
Record Context := mkContext {
  user_id : option string;      (* c.Get("user_id"), set by the auth middleware *)
  Param_id : string;            (* c.Param("id") *)
  Query : string -> string;     (* c.Query(name) *)
  Body_task : option Task.t     (* c.ShouldBindJSON(&task); None: it failed *)
}.

Inductive body :=
  | H_error (msg : string)      (* gin.H{"error": msg} *)
  | H_message (msg : string)    (* gin.H{"message": msg} *)
  | J_task (task : Task.t)
  | J_tasks (tasks : list Task.t).

Definition StatusOK : Z := 200.
Definition StatusBadRequest : Z := 400.
Definition StatusUnauthorized : Z := 401.
Definition StatusForbidden : Z := 403.
Definition StatusNotFound : Z := 404.
Definition StatusInternalServerError : Z := 500.

(** [c.JSON(code, obj)] is the answer of the handler *)
Definition response : Type := Z * body.
Definition H : Type := World -> response * World.

Section TaskHandler.
Context {repo : repository.TaskRepository} {cache : repository.AnalyticsCache}.
(** [time.Parse(time.RFC3339, s)] *)
Variable parseRFC3339 : string -> option Z.

(** the filters GetTasks builds from the request, or the 400 answer *)
Definition filters_of (c : Context) (userID : string) : response + TaskFilters.t :=
  let filters := TaskFilters.mk (Query c "status") (Query c "priority") None
                                userID (Query c "search") in
  if bool_decide (Query c "due_date" <> "") then
    match parseRFC3339 (Query c "due_date") with
    | None => inl (StatusBadRequest, H_error "Invalid due_date format")
    | Some dueDate =>
        inr (TaskFilters.mk (TaskFilters.Status filters) (TaskFilters.Priority filters)
               (Some dueDate) (TaskFilters.UserID filters) (TaskFilters.Search filters))
    end
  else inr filters.

Definition GetTasks (c : Context) : H := fun w =>
  match user_id c with
  | None => ((StatusUnauthorized, H_error "Unauthorized"), w)
  | Some userID =>
      match filters_of c userID with
      | inl bad => (bad, w)
      | inr filters =>
          match service.GetUserTasks userID filters w with
          | (Err _, w1) => ((StatusInternalServerError, H_error "Failed to get tasks"), w1)
          | (Ok tasks, w1) => ((StatusOK, J_tasks tasks), w1)
          end
      end
  end.

Definition GetTask (c : Context) : H := fun w =>
  match user_id c with
  | None => ((StatusUnauthorized, H_error "Unauthorized"), w)
  | Some userID =>
      let taskID := Param_id c in
      if bool_decide (taskID = "") then
        ((StatusBadRequest, H_error "Task ID is required"), w)
      else
        match service.GetUserTask userID taskID w with
        | (Err ErrTaskNotFound, w1) => ((StatusNotFound, H_error "Task not found"), w1)
        | (Err ErrAccessDenied, w1) => ((StatusForbidden, H_error "Access denied"), w1)
        | (Err _, w1) => ((StatusInternalServerError, H_error "Failed to get task"), w1)
        | (Ok task, w1) => ((StatusOK, J_task task), w1)
        end
  end.

Definition StatusCreated : Z := 201.

Definition CreateTask (c : Context) : H := fun w =>
  match user_id c with
  | None => ((StatusUnauthorized, H_error "Unauthorized"), w)
  | Some userID =>
      match Body_task c with
      | None => ((StatusBadRequest, H_error "Invalid request body"), w)
      | Some task =>
          let '(task, w) :=
            if bool_decide (Task.ID task = "") then
              match uuid_New w with
              | (Ok id, w1) => (Task.set_ID id task, w1)
              | (Err _, w1) => (task, w1)
              end
            else (task, w) in
          let now := clock w (ticks w) in
          let w := snd (time_Now w) in
          let task := Task.set_UpdatedAt now (Task.set_CreatedAt now task) in
          match service.CreateTask userID task w with
          | (Err ErrInvalidTaskData, w1) =>
              ((StatusBadRequest, H_error "Invalid task data"), w1)
          | (Err _, w1) =>
              ((StatusInternalServerError, H_error "Failed to create task"), w1)
          | (Ok createdTask, w1) => ((StatusCreated, J_task createdTask), w1)
          end
      end
  end.

Definition UpdateTask (c : Context) : H := fun w =>
  match user_id c with
  | None => ((StatusUnauthorized, H_error "Unauthorized"), w)
  | Some userID =>
      let taskID := Param_id c in
      if bool_decide (taskID = "") then
        ((StatusBadRequest, H_error "Task ID is required"), w)
      else
        match Body_task c with
        | None => ((StatusBadRequest, H_error "Invalid request body"), w)
        | Some task =>
            let task := Task.set_ID taskID task in
            let now := clock w (ticks w) in
            let w := snd (time_Now w) in
            let task := Task.set_UpdatedAt now task in
            match service.UpdateUserTask userID task w with
            | (Err ErrTaskNotFound, w1) => ((StatusNotFound, H_error "Task not found"), w1)
            | (Err ErrAccessDenied, w1) => ((StatusForbidden, H_error "Access denied"), w1)
            | (Err _, w1) =>
                ((StatusInternalServerError, H_error "Failed to update task"), w1)
            | (Ok updatedTask, w1) => ((StatusOK, J_task updatedTask), w1)
            end
        end
  end.

Definition DeleteTask (c : Context) : H := fun w =>
  match user_id c with
  | None => ((StatusUnauthorized, H_error "Unauthorized"), w)
  | Some userID =>
      let taskID := Param_id c in
      if bool_decide (taskID = "") then
        ((StatusBadRequest, H_error "Task ID is required"), w)
      else
        match service.DeleteUserTask userID taskID w with
        | (Err ErrTaskNotFound, w1) => ((StatusNotFound, H_error "Task not found"), w1)
        | (Err ErrAccessDenied, w1) => ((StatusForbidden, H_error "Access denied"), w1)
        | (Err _, w1) =>
            ((StatusInternalServerError, H_error "Failed to delete task"), w1)
        | (Ok _, w1) => ((StatusOK, H_message "Task deleted successfully"), w1)
        end
  end.

(** [tasks] is what c.ShouldBindJSON(&tasks) bound, None when it failed *)
Definition ImportTasks (c : Context) (tasks : option (list Task.t)) : H := fun w =>
  match user_id c with
  | None => ((StatusUnauthorized, H_error "Unauthorized"), w)
  | Some userID =>
      match tasks with
      | None => ((StatusBadRequest, H_error "Invalid request body"), w)
      | Some tasks =>
          match service.ImportTasks userID tasks w with
          | (Err _, w1) =>
              ((StatusInternalServerError, H_error "Failed to import tasks"), w1)
          | (Ok _, w1) => ((StatusOK, H_message "Tasks imported successfully"), w1)
          end
      end
  end.

Definition ExportTasks (c : Context) : H := fun w =>
  match user_id c with
  | None => ((StatusUnauthorized, H_error "Unauthorized"), w)
  | Some userID =>
      match service.ExportUserTasks userID w with
      | (Err _, w1) => ((StatusInternalServerError, H_error "Failed to export tasks"), w1)
      | (Ok tasks, w1) => ((StatusOK, J_tasks tasks), w1)
      end
  end.

(** [validPeriods[period]] on the map literal of isValidPeriod *)
Definition isValidPeriod (period : string) : bool :=
  let validPeriods : gmap string bool :=
    {[ "day" := true; "week" := true; "month" := true ]} in
  default false (validPeriods !! period).

(** the body of GetAnalytics is an error object or a snapshot *)
Definition GetAnalytics (c : Context)
    : World -> (Z * (body + Analytics.t)) * World := fun w =>
  match user_id c with
  | None => ((StatusUnauthorized, inl (H_error "Unauthorized")), w)
  | Some userID =>
      let period := Query c "period" in
      let period := if bool_decide (period = "") then "week" else period in
      if negb (isValidPeriod period) then
        ((StatusBadRequest, inl (H_error "Invalid period")), w)
      else
        match service.GetUserAnalytics userID period w with
        | (Err _, w1) =>
            ((StatusInternalServerError, inl (H_error "Failed to get analytics")), w1)
        | (Ok analytics, w1) => ((StatusOK, inr analytics), w1)
        end
  end.
End TaskHandler.
End handler.

(** * Vocabulary of the specification

    The counts the specification speaks of, defined on the list of tasks
    rather than by the loop of the service. *)

(** a done task with completion data *)
Definition done_with_completion (task : Task.t) : bool :=
  bool_decide (Task.Status task = StatusDone)
  && match Task.CompletedAt task with Some _ => true | None => false end.

(** such a task, completed before its due date *)
Definition completed_on_time (task : Task.t) : bool :=
  bool_decide (Task.Status task = StatusDone)
  && match Task.CompletedAt task with
     | Some completedAt => completedAt <? Task.DueDate task
     | None => false
     end.

Definition count (p : Task.t -> bool) (tasks : list Task.t) : Z :=
  Z.of_nat (length (List.filter p tasks)).

(** The cache write that follows a computation, in the service and in the
    worker alike: the clock is read for CachedAt, the entry is set, and the
    answer of the cache is only logged. This is the environment it leaves. *)
Definition store_snapshot {cache : repository.AnalyticsCache}
    (userID period : string) (a : Analytics.t) (w : World) : World :=
  snd (repository.SetUserAnalytics
         (CachedAnalytics.mk userID period a (clock w (ticks w)))
         (snd (time_Now w))).

(** What Import stores for one task of the payload: the requester as owner,
    the payload's title and description, the defaults where status, priority
    or due date are missing, and no completed timestamp. The id is stated
    apart. *)
Definition imported_as (w : World) (userID : string) (payload row : Task.t) : Prop :=
  Task.UserID row = userID
  /\ Task.Title row = Task.Title payload
  /\ Task.Description row = Task.Description payload
  /\ Task.Status row = (if bool_decide (Task.Status payload = "")
                        then StatusPending else Task.Status payload)
  /\ Task.Priority row = (if bool_decide (Task.Priority payload = "")
                          then PriorityMedium else Task.Priority payload)
  /\ (if Task.DueDate payload =? 0
      then exists k : nat, Task.DueDate row = AddDate (clock w k) 1
      else Task.DueDate row = Task.DueDate payload)
  /\ Task.CompletedAt row = None.

(** The order of the ORDER BY clause of GetAll, spelled out: earlier due
    date first; on the same due date the higher priority first; on the same
    priority the later creation first. *)
Definition ordered_before (a b : Task.t) : Prop :=
  Task.DueDate a < Task.DueDate b
  \/ (Task.DueDate a = Task.DueDate b
      /\ (postgres.priority_rank (Task.Priority b) < postgres.priority_rank (Task.Priority a)
          \/ (postgres.priority_rank (Task.Priority a) = postgres.priority_rank (Task.Priority b)
              /\ Task.CreatedAt b <= Task.CreatedAt a))).

(** the ids of the rows of the store *)
Definition ids (w : World) : list string := map Task.ID (db_tasks (db w)).

(** what an UPDATE statement never writes: id, owner, creation time and
    completed timestamp of a row *)
Definition fixed_columns (r : Task.t) : string * string * Z * option Z :=
  (Task.ID r, Task.UserID r, Task.CreatedAt r, Task.CompletedAt r).

(** tasks by status and by priority *)
Definition has_status (status : string) (task : Task.t) : bool :=
  bool_decide (Task.Status task = status).
Definition has_priority (priority : string) (task : Task.t) : bool :=
  bool_decide (Task.Priority task = priority).

(** the hours from creation to completion of a task, and their sum over the
    done tasks with completion data *)
Definition hours_spent (task : Task.t) : Q :=
  match Task.CompletedAt task with
  | Some completedAt => Hours (completedAt - Task.CreatedAt task)
  | None => 0
  end.
Definition completion_hours (tasks : list Task.t) : Q :=
  fold_right (fun task acc =>
                if done_with_completion task then (hours_spent task + acc)%Q else acc)
             0%Q tasks.

(** a task that is not done and was due before a given instant *)
Definition open_and_due_before (instant : Z) (task : Task.t) : bool :=
  negb (bool_decide (Task.Status task = StatusDone)) && (Task.DueDate task <? instant).

(** * Scenarios

    Concrete environments on which the properties below are exercised. *)

Module scenario.
(** no scenario searches by text: the pattern operator is never consulted *)
Definition ilike (text pattern : string) : bool := false.

(** every scenario starts on day 100; one microsecond passes between two
    readings of the clock *)
Definition start : Z := 100 * day.
Definition clock (n : nat) : Z := Z.of_nat n + start.

Definition uuids (n : nat) : string :=
  match n with
  | 0%nat => "6f1c2a9e-0000-4000-8000-000000000000"
  | 1%nat => "6f1c2a9e-0000-4000-8000-000000000001"
  | 2%nat => "6f1c2a9e-0000-4000-8000-000000000002"
  | _ => "6f1c2a9e-0000-4000-8000-00000000ffff"
  end.

Definition world (up : bool) (rows : list Task.t)
    (cached : gmap string (CachedAnalytics.t * Z)) : World :=
  mkWorld (mkDB up 0 rows) (mkRedis true cached) clock 0 uuids 0.

Definition repo : repository.TaskRepository := postgres.TaskRepository ilike.

(** a task of user u1 *)
Definition errand : Task.t :=
  Task.mk "t1" "Buy milk" "two litres" StatusPending PriorityLow "u1"
          (start + 2 * day) (start - day) (start - day) None.

(** a payload of POST /api/tasks/import that names the errand's id and
    another user as owner, and leaves status, priority and due date out *)
Definition forged : Task.t :=
  Task.mk "t1" "Overwrite" "" "" "" "u2" 0 0 0 None.

(** the store holds the errand and answers; the cache is empty *)
Definition initial : World := world true [errand] ∅.

(** the same rows, but the connection to the store is down *)
Definition outage : World := world false [errand] ∅.

(** a snapshot for u1 taken an hour ago, before u1 had any task, and the
    cache entry that holds it for five more hours *)
Definition old_snapshot : Analytics.t :=
  Analytics.mk ∅ ∅ 0 0 0 "week" (start - hour).
Definition old_entry : CachedAnalytics.t * Z :=
  (CachedAnalytics.mk "u1" "week" old_snapshot (start - hour), start + 5 * hour).

(** the store holds the errand of u1, the cache the old snapshot *)
Definition stale : World :=
  world true [errand] {[ cache.key "u1" "week" := old_entry ]}.

(** two tasks of u1, due ten days ago and three days ago *)
Definition due_10_days_ago : Task.t :=
  Task.mk "t10" "File report" "" StatusPending PriorityMedium "u1"
          (start - 10 * day) (start - 20 * day) (start - 20 * day) None.
Definition due_3_days_ago : Task.t :=
  Task.mk "t3" "Call back" "" StatusPending PriorityMedium "u1"
          (start - 3 * day) (start - 20 * day) (start - 20 * day) None.
Definition backlog : World := world true [due_10_days_ago; due_3_days_ago] ∅.

(** PUT /api/tasks/t1 with a new title only *)
Definition retitle : Task.t := Task.set_Title "Buy oat milk" (Task.set_ID "t1" Task.zero).

(** PUT /api/tasks/t1 with status done only *)
Definition finish : Task.t := Task.set_Status StatusDone (Task.set_ID "t1" Task.zero).

(** a task of u1 that was completed a day before it was due *)
Definition chore : Task.t :=
  Task.mk "t2" "Water plants" "" StatusDone PriorityHigh "u1"
          (start + 2 * day) (start - day) start (Some (start + day)).
End scenario.

(** * Properties *)

(** ** Running computations *)

Ltac run := unfold try, bind, ret, fail in *; simpl in *.

Lemma time_Now_run (w : World) :
  time_Now w =
  (Ok (clock w (ticks w)),
   mkWorld (db w) (redis w) (clock w) (S (ticks w)) (uuids w) (drawn w)).
Proof. reflexivity. Qed.

(** ** The PostgreSQL repository *)

Section PostgresFacts.
Variable ilike : string -> string -> bool.

Lemma GetByID_up (id : string) (w : World) :
  db_up (db w) = true ->
  postgres.GetByID id w =
  (match find (fun r => bool_decide (Task.ID r = id)) (db_tasks (db w)) with
   | None => Err (ErrNew "task not found")
   | Some r => Ok r
   end, set_db (postgres.sent (db w)) w).
Proof.
  intros Hup. unfold postgres.GetByID. simpl. rewrite Hup. simpl.
  destruct (find _ _); reflexivity.
Qed.

Lemma GetByID_down (id : string) (w : World) :
  db_up (db w) = false ->
  postgres.GetByID id w =
  (Err (ErrWrap "failed to get task" ErrDriver), set_db (postgres.sent (db w)) w).
Proof. intros Hup. unfold postgres.GetByID. simpl. rewrite Hup. reflexivity. Qed.

(** What a query returns: the rows of the user named in the filter that
    pass the other conditions. *)
Lemma GetAll_elem (filters : TaskFilters.t) (w w' : World) (tasks : list Task.t) :
  postgres.GetAll ilike filters w = (Ok tasks, w') ->
  forall r, r ∈ tasks <->
            r ∈ db_tasks (db w) /\ postgres.where_clause ilike filters r = true.
Proof.
  unfold postgres.GetAll. simpl. destruct (db_up (db w)); simpl; [|discriminate].
  destruct (postgres.enum_parameters filters); simpl; [|discriminate].
  intros [= <- <-] r. rewrite merge_sort_Permutation, list_elem_of_filter.
  rewrite Is_true_true. tauto.
Qed.

Lemma where_clause_user (filters : TaskFilters.t) (r : Task.t) :
  postgres.where_clause ilike filters r = true ->
  Task.UserID r = TaskFilters.UserID filters.
Proof.
  unfold postgres.where_clause. rewrite !andb_true_iff.
  intros [[[[H _] _] _] _]. by apply bool_decide_eq_true in H.
Qed.

Lemma where_clause_due (filters : TaskFilters.t) (r : Task.t) (d : Z) :
  TaskFilters.DueDate filters = Some d ->
  postgres.where_clause ilike filters r = true ->
  date_of (Task.DueDate r) = date_of d.
Proof.
  unfold postgres.where_clause. intros ->. rewrite !andb_true_iff.
  intros [[_ H] _]. by apply bool_decide_eq_true in H.
Qed.
End PostgresFacts.

(** ** The block of Update that folds the request into the stored task *)

(** [patch] never fails, reads the clock only, and decides each field as
    follows. *)
Lemma patch_spec (task existing : Task.t) (w : World) :
  exists (m : Task.t) (w' : World),
    service.patch task existing w = (Ok m, w')
    /\ db w' = db w /\ redis w' = redis w
    /\ Task.ID m = Task.ID existing
    /\ Task.UserID m = Task.UserID existing
    /\ Task.CreatedAt m = Task.CreatedAt existing
    /\ Task.Title m = (if bool_decide (Task.Title task = "")
                       then Task.Title existing else Task.Title task)
    /\ Task.Description m = Task.Description task
    /\ Task.Status m = (if bool_decide (Task.Status task = "")
                        then Task.Status existing else Task.Status task)
    /\ Task.Priority m = (if bool_decide (Task.Priority task = "")
                          then Task.Priority existing else Task.Priority task)
    /\ Task.DueDate m = (if Task.DueDate task =? 0
                         then Task.DueDate existing else Task.DueDate task)
    /\ Task.CompletedAt m =
       (if bool_decide (Task.Status task = StatusDone)
           && service.not_completed (Task.CompletedAt existing)
        then Some (clock w (ticks w)) else Task.CompletedAt existing).
Proof.
  unfold service.patch.
  destruct task as [i ti de st pr us du cr up co].
  destruct existing as [i' ti' de' st' pr' us' du' cr' up' co'].
  simpl.
  repeat (rewrite ?bool_decide_not; simpl;
          match goal with
          | |- context [bool_decide (?a = ?b)] => destruct (bool_decide (a = b)) eqn:?
          | |- context [service.not_completed ?c] => destruct (service.not_completed c) eqn:?
          | |- context [?a =? 0] => destruct (a =? 0) eqn:?
          end; run);
    repeat match goal with
           | H : bool_decide (_ = _) = true |- _ => apply bool_decide_eq_true in H
           | H : bool_decide (_ = _) = false |- _ => clear H
           end;
    unfold StatusDone in *; try congruence;
    do 2 eexists; repeat split; simpl; congruence.
Qed.

(** ** The service over any repository *)

Section ServiceFacts.
Context {repo : repository.TaskRepository}.

Lemma GetByID_run (id userID : string) (w : World) :
  service.GetByID id userID w =
  match repository.GetByID id w with
  | (Err _, w1) => (Err ErrTaskNotFound, w1)
  | (Ok task, w1) =>
      if bool_decide (Task.UserID task = userID) then (Ok task, w1)
      else (Err ErrAccessDenied, w1)
  end.
Proof.
  unfold service.GetByID. run. destruct (repository.GetByID id w) as [[task|e] w1]; [|done].
  rewrite bool_decide_not. by destruct (bool_decide _).
Qed.
End ServiceFacts.

(** C8, as the code has it: whatever makes the store fail on a single-task
    read, the service answers ErrTaskNotFound and the handler the 404
    outcome; the 500 branch of GetTask is never taken for a store failure. *)
Theorem GetTask_store_failure_answers_404
    (repo : repository.TaskRepository) (c : handler.Context) (userID : string)
    (w w1 : World) (e : error) :
  handler.user_id c = Some userID ->
  handler.Param_id c <> "" ->
  repository.GetByID (handler.Param_id c) w = (Err e, w1) ->
  handler.GetTask c w = ((handler.StatusNotFound, handler.H_error "Task not found"), w1).
Proof.
  intros Hu Hid Hget. unfold handler.GetTask, service.GetUserTask.
  rewrite Hu, bool_decide_eq_false_2 by done.
  by rewrite GetByID_run, Hget.
Qed.

Lemma GetTask_store_failure_answers_404_witness :
  handler.GetTask (repo := scenario.repo)
                  (handler.mkContext (Some "u1") "t1" (fun _ => "") None)
                  scenario.outage
  = ((404, handler.H_error "Task not found"),
     set_db (mkDB false 1 [scenario.errand]) scenario.outage).
Proof.
  apply (GetTask_store_failure_answers_404 scenario.repo _ "u1" _ _
           (ErrWrap "failed to get task" ErrDriver)).
  - reflexivity.
  - discriminate.
  - reflexivity.
Defined.

(** C10: GetUserTasks hands the filters to the repository and never looks at
    its userID argument; with the PostgreSQL repository every task returned
    is owned by filters.UserID, which the handler GetTasks sets to the
    authenticated user. *)
Theorem GetUserTasks_ignores_userID
    (ilike : string -> string -> bool) (parseRFC3339 : string -> option Z)
    (repo : repository.TaskRepository)
    (userID other : string) (filters : TaskFilters.t) (c : handler.Context) (w : World) :
  service.GetUserTasks userID filters w = repository.GetAll filters w
  /\ service.GetUserTasks userID filters w = service.GetUserTasks other filters w
  /\ match service.GetUserTasks (repo := postgres.TaskRepository ilike) userID filters w with
     | (Ok tasks, _) =>
         Forall (fun task => Task.UserID task = TaskFilters.UserID filters) tasks
     | (Err _, _) => True
     end
  /\ match handler.filters_of parseRFC3339 c userID with
     | inr built => TaskFilters.UserID built = userID
     | inl _ => True
     end.
Proof.
  repeat split.
  - unfold service.GetUserTasks, service.GetAll. simpl.
    destruct (postgres.GetAll ilike filters w) as [[tasks|e] w'] eqn:Hq; [|done].
    apply Forall_forall. intros r Hr.
    apply (GetAll_elem ilike _ _ _ _ Hq) in Hr as [_ Hr].
    by apply where_clause_user in Hr.
  - unfold handler.filters_of.
    destruct (bool_decide _); [|done]. by destruct (parseRFC3339 _).
Qed.

(** ** The ownership guard *)

Lemma find_existsb {A} (p : A -> bool) (l : list A) (x : A) :
  find p l = Some x -> existsb p l = true.
Proof.
  induction l as [|y l IH]; simpl; [done|].
  destruct (p y); [done|]. exact IH.
Qed.

Lemma find_holds {A} (p : A -> bool) (l : list A) (x : A) :
  find p l = Some x -> p x = true /\ x ∈ l.
Proof.
  induction l as [|y l IH]; simpl; [done|].
  destruct (p y) eqn:Hy.
  - intros [= <-]. split; [done|]. apply list_elem_of_here.
  - intros H. destruct (IH H). split; [done|]. by apply list_elem_of_further.
Qed.

(** C5: on the PostgreSQL store, for a read, an update or a delete of task
    [id] asked by [userID]: no row with that id gives ErrTaskNotFound whoever
    asks; a row owned by someone else gives ErrAccessDenied; a row owned by
    the requester lets the operation proceed (the read returns the row, the
    delete removes it, the update hands the patched row to the store, whose
    answer is the outcome). A refused request leaves the rows as they were. *)
Theorem ownership_guard
    (ilike : string -> string -> bool) (w : World) (id userID : string) (req : Task.t) :
  db_up (db w) = true ->
  Task.ID req = id ->
  let pg := postgres.TaskRepository ilike in
  let read := service.GetUserTask (repo := pg) userID id w in
  let update := service.UpdateUserTask (repo := pg) userID req w in
  let delete := service.DeleteUserTask (repo := pg) userID id w in
  match find (fun r => bool_decide (Task.ID r = id)) (db_tasks (db w)) with
  | None =>
      fst read = Err ErrTaskNotFound /\ fst update = Err ErrTaskNotFound
      /\ fst delete = Err ErrTaskNotFound
      /\ db_tasks (db (snd update)) = db_tasks (db w)
      /\ db_tasks (db (snd delete)) = db_tasks (db w)
  | Some task =>
      if bool_decide (Task.UserID task = userID) then
        fst read = Ok task
        /\ (exists (m : Task.t) (w1 : World),
              service.patch req task (set_db (postgres.sent (db w)) w) = (Ok m, w1)
              /\ update = match postgres.Update m w1 with
                          | (Ok _, w2) => (Ok m, w2)
                          | (Err e, w2) => (Err e, w2)
                          end)
        /\ fst delete = Ok tt
        /\ db_tasks (db (snd delete)) = filter (fun r => Task.ID r <> id) (db_tasks (db w))
      else
        fst read = Err ErrAccessDenied /\ fst update = Err ErrAccessDenied
        /\ fst delete = Err ErrAccessDenied
        /\ db_tasks (db (snd update)) = db_tasks (db w)
        /\ db_tasks (db (snd delete)) = db_tasks (db w)
  end.
Proof.
  intros Hup Hid pg read update delete. subst read update delete.
  unfold service.GetUserTask, service.UpdateUserTask, service.DeleteUserTask,
    service.Delete, service.Update.
  rewrite Hid. run. rewrite !(GetByID_run (repo := pg)). simpl.
  rewrite !GetByID_up by done.
  destruct (find _ _) as [task|] eqn:Hfind; [|done].
  rewrite bool_decide_not.
  destruct (bool_decide (Task.UserID task = userID)) eqn:Hown; simpl; [|done].
  rewrite bool_decide_not, Hown. simpl.
  split; [done|]. split.
  - destruct (patch_spec req task (set_db (postgres.sent (db w)) w))
      as (m & w1 & Hp & _).
    exists m, w1. split; [done|]. rewrite Hp.
    by destruct (postgres.Update m w1) as [[[]|e] w2].
  - unfold postgres.Delete. simpl. rewrite Hup. simpl.
    by rewrite (find_existsb _ _ _ Hfind).
Qed.

Lemma ownership_guard_witness :
  fst (service.GetUserTask (repo := scenario.repo) "u1" "t1"
         scenario.initial) = Ok scenario.errand
  /\ fst (service.DeleteUserTask (repo := scenario.repo) "u1" "t1"
            scenario.initial) = Ok tt.
Proof.
  pose proof (ownership_guard scenario.ilike scenario.initial
                "t1" "u1" (Task.set_ID "t1" Task.zero) eq_refl eq_refl) as H.
  simpl in H. destruct H as (Hread & _ & Hdel & _). split; [exact Hread | exact Hdel].
Defined.

(** ** An update and what the store holds after it *)

Lemma find_map_stable {A} (p : A -> bool) (f : A -> A) (l : list A) :
  (forall x, p (f x) = p x) ->
  find p (map f l) = option_map f (find p l).
Proof.
  intros Hpf. induction l as [|x l IH]; simpl; [done|].
  rewrite Hpf. by destruct (p x).
Qed.

(** A successful update of a row of the requester: the task returned is the
    patched row, and the row then found under the id carries the six columns
    of the UPDATE statement from it and keeps id, owner, created_at and
    completed_at as they were. *)
Lemma Update_round_trip
    (ilike : string -> string -> bool) (w w' : World) (userID : string)
    (req existing m : Task.t) :
  db_up (db w) = true ->
  find (fun r => bool_decide (Task.ID r = Task.ID req)) (db_tasks (db w)) = Some existing ->
  Task.UserID existing = userID ->
  service.UpdateUserTask (repo := postgres.TaskRepository ilike) userID req w = (Ok m, w') ->
  (exists w0, service.patch req existing (set_db (postgres.sent (db w)) w) = (Ok m, w0))
  /\ db_up (db w') = true
  /\ clock w' = clock w
  /\ find (fun r => bool_decide (Task.ID r = Task.ID req)) (db_tasks (db w'))
     = Some (postgres.updated_row m existing).
Proof.
  intros Hup Hfind Hown.
  unfold service.UpdateUserTask, service.Update. run.
  rewrite GetByID_up, Hfind by done.
  rewrite bool_decide_not, bool_decide_eq_true_2 by done. simpl.
  destruct (patch_spec req existing (set_db (postgres.sent (db w)) w))
    as (m' & w0 & Hp & Hdb & _ & Hi & Hu & _).
  rewrite Hp. unfold postgres.Update. rewrite Hdb. simpl. rewrite Hup. simpl.
  destruct (find_holds _ _ _ Hfind) as [Hid%bool_decide_eq_true Hin].
  assert (Hm : postgres.update_matches m' existing = true).
  { unfold postgres.update_matches.
    rewrite Hi, Hu, !bool_decide_eq_true_2; done. }
  assert (Hex : existsb (postgres.update_matches m') (db_tasks (db w)) = true).
  { apply existsb_exists. exists existing. split; [|done]. by apply list_elem_of_In. }
  rewrite Hex. simpl.
  destruct (negb (postgres.task_status (Task.Status m'))
            || negb (postgres.task_priority (Task.Priority m'))); [discriminate|].
  intros [= <- <-]. simpl.
  split; [by exists w0|]. split; [done|]. split.
  - assert (Hc : clock w0 = clock w); [|done].
    revert Hp. unfold service.patch. run.
    repeat match goal with
           | |- context [if ?b then _ else _] => destruct b; simpl
           end; by intros [= _ <-].
  - rewrite find_map_stable, Hfind; simpl.
    + by rewrite Hm.
    + intros r. by destruct (postgres.update_matches m' r).
Qed.


(** a run whose result is known *)
Lemma run_result {A} (x : result A * World) (a : A) :
  fst x = Ok a -> x = (Ok a, snd x).
Proof. destruct x as [r w]. simpl. by intros ->. Qed.

(** C3, the claim as written, fails for the description: a request that
    leaves the description out empties the stored one. *)
Lemma update_clears_omitted_description :
  ~ (forall (w : World) (userID : string) (req existing : Task.t),
       db_up (db w) = true ->
       find (fun r => bool_decide (Task.ID r = Task.ID req)) (db_tasks (db w))
         = Some existing ->
       Task.UserID existing = userID ->
       Task.Description req = "" ->
       match service.UpdateUserTask (repo := scenario.repo) userID req w with
       | (Ok _, w') =>
           match postgres.GetByID (Task.ID req) w' with
           | (Ok stored, _) => Task.Description stored = Task.Description existing
           | (Err _, _) => False
           end
       | (Err _, _) => False
       end).
Proof.
  intros H.
  specialize (H scenario.initial "u1"
                scenario.retitle scenario.errand eq_refl eq_refl eq_refl eq_refl).
  vm_compute in H. discriminate H.
Qed.

(** C3, what Update does: after a successful update of a task by its owner,
    the row found under the id has the request's title, status, priority and
    due date where the request gives a non-empty one and the previous value
    where it gives none; its description is the request's, empty or not, so
    a request that leaves the description out loses the stored one, unlike
    its four siblings: the guard of the description compares it with the
    stored value where the others test for the empty value. Id, owner and
    creation time are untouched. *)
Theorem Update_overwrites_supplied_fields
    (ilike : string -> string -> bool) (w w' : World) (userID : string)
    (req existing m : Task.t) :
  db_up (db w) = true ->
  find (fun r => bool_decide (Task.ID r = Task.ID req)) (db_tasks (db w)) = Some existing ->
  Task.UserID existing = userID ->
  service.UpdateUserTask (repo := postgres.TaskRepository ilike) userID req w = (Ok m, w') ->
  exists stored : Task.t,
    postgres.GetByID (Task.ID req) w' = (Ok stored, set_db (postgres.sent (db w')) w')
    /\ Task.Title stored = (if bool_decide (Task.Title req = "")
                            then Task.Title existing else Task.Title req)
    /\ Task.Description stored = Task.Description req
    /\ Task.Status stored = (if bool_decide (Task.Status req = "")
                             then Task.Status existing else Task.Status req)
    /\ Task.Priority stored = (if bool_decide (Task.Priority req = "")
                               then Task.Priority existing else Task.Priority req)
    /\ Task.DueDate stored = (if Task.DueDate req =? 0
                              then Task.DueDate existing else Task.DueDate req)
    /\ Task.ID stored = Task.ID existing
    /\ Task.UserID stored = Task.UserID existing
    /\ Task.CreatedAt stored = Task.CreatedAt existing
    /\ Task.Title m = Task.Title stored
    /\ Task.Description m = Task.Description stored
    /\ Task.Status m = Task.Status stored
    /\ Task.Priority m = Task.Priority stored
    /\ Task.DueDate m = Task.DueDate stored.
Proof.
  intros Hup Hfind Hown Hrun.
  destruct (Update_round_trip ilike _ _ _ _ _ _ Hup Hfind Hown Hrun)
    as ((w0 & Hp) & Hup' & _ & Hfind').
  destruct (patch_spec req existing (set_db (postgres.sent (db w)) w))
    as (m' & w0' & Hp' & _ & _ & _ & _ & _ & Hti & Hde & Hst & Hpr & Hdu & _).
  rewrite Hp in Hp'. injection Hp' as <- <-.
  exists (postgres.updated_row m existing).
  rewrite GetByID_up, Hfind' by done. simpl.
  repeat split; done.
Qed.

Lemma Update_overwrites_supplied_fields_witness :
  exists stored : Task.t,
    fst (postgres.GetByID "t1"
           (snd (service.UpdateUserTask (repo := scenario.repo) "u1" scenario.retitle
                   scenario.initial))) = Ok stored
    /\ Task.Title stored = "Buy oat milk"
    /\ Task.Description stored = ""
    /\ Task.Status stored = StatusPending.
Proof.
  pose proof (run_result
                (service.UpdateUserTask (repo := scenario.repo) "u1" scenario.retitle
                   scenario.initial)
                (Task.mk "t1" "Buy oat milk" "" StatusPending PriorityLow "u1"
                   (scenario.start + 2 * day) (scenario.start - day) scenario.start None))
    as Hrun.
  destruct (Update_overwrites_supplied_fields scenario.ilike
              scenario.initial _ "u1"
              scenario.retitle scenario.errand _ eq_refl eq_refl eq_refl
              (Hrun ltac:(vm_compute; reflexivity)))
    as (stored & Hget & Hti & Hde & Hst & _).
  exists stored. change (Task.ID scenario.retitle) with "t1" in Hget.
  rewrite Hget. repeat split; assumption.
Defined.

(** ** The completed timestamp *)

(** The guard of Update by itself: a task that comes back from the store with
    a completed timestamp keeps it, whatever the request. *)
Lemma patch_keeps_completed (task existing : Task.t) (w : World) (t : Z) :
  Task.CompletedAt existing = Some t -> t <> 0 ->
  exists m w', service.patch task existing w = (Ok m, w') /\ Task.CompletedAt m = Some t.
Proof.
  intros Hc Ht.
  destruct (patch_spec task existing w) as (m & w' & Hp & H).
  exists m, w'. split; [done|].
  destruct H as (_ & _ & _ & _ & _ & _ & _ & _ & _ & _ & ->).
  rewrite Hc. simpl. apply Z.eqb_neq in Ht. rewrite Ht.
  by rewrite andb_false_r.
Qed.

(** C6 on the PostgreSQL store: the UPDATE statement does not write
    completed_at, so the timestamp assigned by an update to done is not in
    the row afterwards, and a second update to done assigns a new one, read
    from the clock at that time. *)
Theorem done_again_assigns_again
    (ilike : string -> string -> bool) (w w1 w2 : World) (userID : string)
    (req existing m1 m2 : Task.t) :
  db_up (db w) = true ->
  find (fun r => bool_decide (Task.ID r = Task.ID req)) (db_tasks (db w)) = Some existing ->
  Task.UserID existing = userID ->
  Task.CompletedAt existing = None ->
  Task.Status req = StatusDone ->
  service.UpdateUserTask (repo := postgres.TaskRepository ilike) userID req w = (Ok m1, w1) ->
  service.UpdateUserTask (repo := postgres.TaskRepository ilike) userID req w1 = (Ok m2, w2) ->
  Task.CompletedAt m1 = Some (clock w (ticks w))
  /\ (exists stored,
        find (fun r => bool_decide (Task.ID r = Task.ID req)) (db_tasks (db w1))
          = Some stored
        /\ Task.CompletedAt stored = None)
  /\ Task.CompletedAt m2 = Some (clock w1 (ticks w1)).
Proof.
  intros Hup Hfind Hown Hnone Hdone Hrun1 Hrun2.
  destruct (Update_round_trip ilike _ _ _ _ _ _ Hup Hfind Hown Hrun1)
    as ((w0 & Hp1) & Hup1 & _ & Hfind1).
  assert (Hown1 : Task.UserID (postgres.updated_row m1 existing) = userID) by done.
  destruct (Update_round_trip ilike _ _ _ _ _ _ Hup1 Hfind1 Hown1 Hrun2)
    as ((w0' & Hp2) & _).
  destruct (patch_spec req existing (set_db (postgres.sent (db w)) w))
    as (m & w' & Hp & H).
  rewrite Hp1 in Hp. injection Hp as <- <-.
  destruct H as (_ & _ & _ & _ & _ & _ & _ & _ & _ & _ & Hc1).
  destruct (patch_spec req (postgres.updated_row m1 existing)
              (set_db (postgres.sent (db w1)) w1)) as (m & w' & Hp & H).
  rewrite Hp2 in Hp. injection Hp as <- <-.
  destruct H as (_ & _ & _ & _ & _ & _ & _ & _ & _ & _ & Hc2).
  simpl in Hc1, Hc2. rewrite Hnone, Hdone in *. simpl in Hc1, Hc2.
  split; [done|]. split; [|done].
  eexists. split; [exact Hfind1|]. done.
Qed.

Lemma done_again_assigns_again_witness :
  exists m1 m2 : Task.t,
    fst (service.UpdateUserTask (repo := scenario.repo) "u1" scenario.finish
           scenario.initial) = Ok m1
    /\ fst (service.UpdateUserTask (repo := scenario.repo) "u1" scenario.finish
              (snd (service.UpdateUserTask (repo := scenario.repo) "u1" scenario.finish
                      scenario.initial))) = Ok m2
    /\ Task.CompletedAt m1 = Some scenario.start
    /\ Task.CompletedAt m2 = Some (scenario.start + 2).
Proof.
  pose (W := scenario.initial).
  pose (M1 := Task.mk "t1" "Buy milk" "" StatusDone PriorityLow "u1"
                (scenario.start + 2 * day) (scenario.start - day)
                (scenario.start + 1) (Some scenario.start)).
  pose (M2 := Task.mk "t1" "Buy milk" "" StatusDone PriorityLow "u1"
                (scenario.start + 2 * day) (scenario.start - day)
                (scenario.start + 3) (Some (scenario.start + 2))).
  pose proof (run_result (service.UpdateUserTask (repo := scenario.repo) "u1"
                            scenario.finish W) M1 ltac:(vm_compute; reflexivity)) as Hrun1.
  pose proof (run_result
                (service.UpdateUserTask (repo := scenario.repo) "u1" scenario.finish
                   (snd (service.UpdateUserTask (repo := scenario.repo) "u1"
                           scenario.finish W)))
                M2 ltac:(vm_compute; reflexivity)) as Hrun2.
  destruct (done_again_assigns_again scenario.ilike W _ _ "u1" scenario.finish
              scenario.errand M1 M2 eq_refl eq_refl eq_refl eq_refl eq_refl Hrun1 Hrun2)
    as (H1 & _ & H2).
  exists M1, M2.
  split; [exact (f_equal fst Hrun1)|]. split; [exact (f_equal fst Hrun2)|].
  split; [exact H1|]. vm_compute in H2 |- *. exact H2.
Defined.

(** ** The analytics engine *)

Lemma count_cons (p : Task.t -> bool) (task : Task.t) (tasks : list Task.t) :
  count p (task :: tasks) = (if p task then 1 else 0) + count p tasks.
Proof.
  unfold count. simpl. destruct (p task); simpl; lia.
Qed.

(** The loop never fails and touches nothing but the clock; its counters of
    done and of on-time tasks are the counts of the specification. *)
Lemma count_tasks_spec (tasks : list Task.t) (c : service.counters) (w : World) :
  exists (c' : service.counters) (w' : World),
    service.count_tasks tasks c w = (Ok c', w')
    /\ db w' = db w /\ redis w' = redis w /\ clock w' = clock w
    /\ service.completedTasks c' = service.completedTasks c + count done_with_completion tasks
    /\ service.onTimeTasks c' = service.onTimeTasks c + count completed_on_time tasks.
Proof.
  revert c w. induction tasks as [|task tasks IH]; intros c w.
  - exists c, w. unfold count. simpl. run. repeat split; lia.
  - simpl. rewrite !count_cons. unfold service.count_task at 1.
    set (n1 := count done_with_completion tasks) in *.
    set (n2 := count completed_on_time tasks) in *.
    unfold done_with_completion, completed_on_time.
    run. rewrite bool_decide_not.
    destruct (Task.CompletedAt task) as [completedAt|];
      destruct (bool_decide (Task.Status task = StatusDone)); simpl;
      try destruct (completedAt <? Task.DueDate task); simpl;
      match goal with
      | |- context [service.count_tasks tasks ?c0 ?w0] =>
          destruct (IH c0 w0) as (c' & w' & -> & Hd & Hr & Hc & Hdone & Hon)
      end;
      exists c', w'; simpl in *; repeat split; try done; lia.
Qed.

Lemma compute_spec (period : string) (tasks : list Task.t) (w : World) :
  exists (c : service.counters) (w' : World),
    service.compute period tasks w
    = (Ok (service.snapshot period (clock w (ticks w)) c), w')
    /\ db w' = db w /\ redis w' = redis w /\ clock w' = clock w
    /\ service.completedTasks c = count done_with_completion tasks
    /\ service.onTimeTasks c = count completed_on_time tasks.
Proof.
  unfold service.compute. run.
  match goal with
  | |- context [service.count_tasks tasks ?c0 ?w0] =>
      destruct (count_tasks_spec tasks c0 w0) as (c & w' & -> & Hd & Hr & Hc & Hdone & Hon)
  end.
  exists c, w'. simpl in *. repeat split; try done; lia.
Qed.

Lemma count_nonneg (p : Task.t -> bool) (tasks : list Task.t) : 0 <= count p tasks.
Proof. unfold count. lia. Qed.

(** C4, the claim as written, fails: one task completed on time out of one
    done task gives 100, not 1. *)
Lemma on_time_rate_is_not_the_fraction :
  ~ (forall (period : string) (tasks : list Task.t) (w : World),
       match service.compute period tasks w with
       | (Ok a, _) =>
           (Analytics.OnTimeCompletionRate a ==
            if count done_with_completion tasks =? 0 then 0
            else inject_Z (count completed_on_time tasks)
                 / inject_Z (count done_with_completion tasks))%Q
       | (Err _, _) => False
       end).
Proof.
  intros H.
  specialize (H "week" [scenario.chore] (scenario.world true [scenario.chore] ∅)).
  vm_compute in H. discriminate H.
Qed.

(** C4, amended: the on-time completion rate of every computed snapshot is
    the percentage 100 * onTimeCount / doneWithCompletionCount, and 0 when no
    done task has completion data. *)
Theorem on_time_rate_is_a_percentage (period : string) (tasks : list Task.t) (w : World) :
  exists (a : Analytics.t) (w' : World),
    service.compute period tasks w = (Ok a, w')
    /\ (Analytics.OnTimeCompletionRate a ==
        if count done_with_completion tasks =? 0 then 0
        else inject_Z (count completed_on_time tasks)
             / inject_Z (count done_with_completion tasks) * 100)%Q.
Proof.
  destruct (compute_spec period tasks w) as (c & w' & Hrun & _ & _ & _ & Hdone & Hon).
  eexists _, w'. split; [exact Hrun|]. simpl. rewrite Hdone, Hon.
  pose proof (count_nonneg done_with_completion tasks) as Hge.
  destruct (count done_with_completion tasks =? 0) eqn:Hz.
  - apply Z.eqb_eq in Hz. rewrite Hz. reflexivity.
  - apply Z.eqb_neq in Hz.
    assert (Hpos : (0 <? count done_with_completion tasks) = true) by (apply Z.ltb_lt; lia).
    rewrite Hpos. reflexivity.
Qed.

(** ** Cache first, then the store *)

Section AnalyticsFacts.
Context {repo : repository.TaskRepository} {cache : repository.AnalyticsCache}.

(** GetUserAnalytics, path by path. *)
Lemma GetUserAnalytics_run (userID period : string) (w : World) :
  service.GetUserAnalytics userID period w =
  match repository.GetUserAnalytics userID period w with
  | (Ok (Some cachedData), w1) => (Ok (CachedAnalytics.Analytics cachedData), w1)
  | (_, w1) =>
      match repository.GetAll (TaskFilters.mk "" "" None userID "") w1 with
      | (Err e, w2) => (Err e, w2)
      | (Ok tasks, w2) =>
          match service.compute period tasks w2 with
          | (Ok a, w3) => (Ok a, store_snapshot userID period a w3)
          | (Err e, w3) => (Err e, w3)
          end
      end
  end.
Proof.
  unfold service.GetUserAnalytics, store_snapshot. run.
  destruct (repository.GetUserAnalytics userID period w) as [[[c|]|e] w1]; try done;
    (destruct (repository.GetAll _ w1) as [[tasks|e'] w2]; [|done];
     destruct (service.compute period tasks w2) as [[a|e''] w3]; [|done];
     simpl; by destruct (repository.SetUserAnalytics _ _)).
Qed.

(** the body of the refresh loop, path by path *)
Lemma refresh_run (userID period : string) (w : World) :
  worker.refresh userID period w =
  match service.GetUserAnalytics userID period w with
  | (Ok a, w1) => (Ok tt, store_snapshot userID period a w1)
  | (Err _, w1) => (Ok tt, w1)
  end.
Proof.
  unfold worker.refresh, service.GetAnalytics, store_snapshot. run.
  destruct (service.GetUserAnalytics userID period w) as [[a|e] w1]; [|done].
  simpl. by destruct (repository.SetUserAnalytics _ _).
Qed.
End AnalyticsFacts.

(** C7: when the cache read misses or fails, a failing store query is handed
    to the caller as it is, with no snapshot and no cache write; a store
    query that succeeds gives the snapshot computed from its tasks, and that
    snapshot is returned whatever the cache write answers. *)
Theorem GetUserAnalytics_degrades_on_cache_strict_on_store
    (repo : repository.TaskRepository) (cache : repository.AnalyticsCache)
    (userID period : string) (w w1 : World) (read : result (option CachedAnalytics.t)) :
  repository.GetUserAnalytics userID period w = (read, w1) ->
  read = Ok None \/ (exists e, read = Err e) ->
  match repository.GetAll (TaskFilters.mk "" "" None userID "") w1 with
  | (Err e, w2) => service.GetUserAnalytics userID period w = (Err e, w2)
  | (Ok tasks, w2) =>
      exists (a : Analytics.t) (w3 : World),
        service.compute period tasks w2 = (Ok a, w3)
        /\ forall (written : result unit) (w4 : World),
             repository.SetUserAnalytics
               (CachedAnalytics.mk userID period a (clock w3 (ticks w3)))
               (snd (time_Now w3)) = (written, w4) ->
             service.GetUserAnalytics userID period w = (Ok a, w4)
  end.
Proof.
  intros Hread Hmiss. rewrite GetUserAnalytics_run, Hread.
  destruct (repository.GetAll _ w1) as [[tasks|e'] w2].
  - destruct (compute_spec period tasks w2) as (c & w3 & Hc & _).
    eexists _, w3. split; [exact Hc|].
    intros written w4 Hset. rewrite Hc. unfold store_snapshot. rewrite Hset.
    by destruct Hmiss as [->|[e ->]].
  - by destruct Hmiss as [->|[e ->]].
Qed.


Lemma GetUserAnalytics_degrades_on_cache_strict_on_store_witness :
  exists a : Analytics.t,
    fst (service.GetUserAnalytics (repo := scenario.repo) (cache := cache.RedisCache)
           "u1" "week" scenario.initial) = Ok a.
Proof.
  pose proof (GetUserAnalytics_degrades_on_cache_strict_on_store
                scenario.repo cache.RedisCache "u1" "week"
                scenario.initial
                scenario.initial
                (Ok None) ltac:(vm_compute; reflexivity) (or_introl eq_refl)) as H.
  assert (Hq : repository.GetAll (TaskRepository := scenario.repo)
                 (TaskFilters.mk "" "" None "u1" "")
                 scenario.initial
               = (Ok [scenario.errand],
                  set_db (mkDB true 1 [scenario.errand])
                         scenario.initial))
    by (vm_compute; reflexivity).
  rewrite Hq in H. destruct H as (a & w3 & _ & Hret).
  exists a. by rewrite (Hret _ _ (surjective_pairing _)).
Defined.

(** ** Import *)

(** One round of Import on the PostgreSQL store: one UUID is drawn; the
    round either appends one row, built as [imported_as] says under the UUID
    drawn, or fails and leaves the rows alone. *)
Lemma import_one_spec
    (ilike : string -> string -> bool) (userID : string) (task : Task.t) (w : World) :
  exists (r : result unit) (w' : World),
    service.import_one (repo := postgres.TaskRepository ilike) userID task w = (r, w')
    /\ clock w' = clock w /\ uuids w' = uuids w /\ drawn w' = S (drawn w)
    /\ match r with
       | Ok _ => exists row, db_tasks (db w') = (db_tasks (db w) ++ [row])%list
                            /\ Task.ID row = uuids w (drawn w)
                            /\ imported_as w userID task row
       | Err _ => db_tasks (db w') = db_tasks (db w)
       end.
Proof.
  unfold service.import_one, uuid_New, time_Now, imported_as.
  destruct task as [i ti de st pr us du cr up co].
  destruct w as [[dbup calls rows] rd ck tk uu dr].
  unfold try, bind, ret, fail. cbn.
  destruct (bool_decide (st = "")); cbn;
    destruct (bool_decide (pr = "")); cbn;
    destruct (du =? 0); cbn;
    unfold postgres.Create; cbn;
    (destruct dbup; cbn;
     [ match goal with
       | |- context [if ?b then _ else _] => destruct b
       end |]);
    do 2 eexists; (split; [reflexivity|]); cbn; repeat split; try done;
    eexists; cbn; repeat split; try done; by eexists.
Qed.

Lemma imported_as_clock (w w1 : World) (userID : string) (payload row : Task.t) :
  clock w1 = clock w -> imported_as w1 userID payload row -> imported_as w userID payload row.
Proof. unfold imported_as. by intros ->. Qed.

(** Import on the PostgreSQL store, by induction on the payload. *)
Lemma Import_spec
    (ilike : string -> string -> bool) (userID : string) (payload : list Task.t) (w : World) :
  exists (r : result unit) (w' : World) (added : list Task.t),
    service.Import (repo := postgres.TaskRepository ilike) userID payload w = (r, w')
    /\ clock w' = clock w /\ uuids w' = uuids w
    /\ db_tasks (db w') = (db_tasks (db w) ++ added)%list
    /\ map Task.ID added = map (uuids w) (seq (drawn w) (length added))
    /\ Forall2 (imported_as w userID) (take (length added) payload) added
    /\ match r with
       | Ok _ => length added = length payload
       | Err _ => (length added < length payload)%nat
       end.
Proof.
  revert w. induction payload as [|task rest IH]; intros w.
  - exists (Ok tt), w, []. simpl. rewrite app_nil_r. repeat split; constructor.
  - destruct (import_one_spec ilike userID task w)
      as (r1 & w1 & Hone & Hck & Huu & Hdr & Hrow).
    simpl. unfold try, bind. rewrite Hone.
    destruct r1 as [[]|e].
    + destruct Hrow as (row & Hrows & Hid & Has).
      destruct (IH w1) as (r & w' & added & Hrun & Hck' & Huu' & Hrows' & Hids & Hall & Hlen).
      exists r, w', (row :: added). rewrite Hrun. simpl.
      repeat split.
      * congruence.
      * congruence.
      * rewrite Hrows', Hrows, <- app_assoc. reflexivity.
      * rewrite Hid, Hids, Huu, Hdr. reflexivity.
      * constructor; [done|].
        eapply Forall2_impl; [exact Hall|].
        intros p q. by apply imported_as_clock.
      * destruct r; simpl; lia.
    + exists (Err e), w1, []. unfold fail. simpl. rewrite app_nil_r.
      repeat split; try done; simpl; lia.
Qed.

(** C9: whatever ids and owners the payload names, ImportTasks only appends
    rows: the rows already there stay as they are, and every row added has an
    id drawn from the UUID source (the next ones, in order), the requester as
    owner and the defaults for a missing status, priority or due date. All
    the payload is added when the import succeeds, a strict prefix of it when
    it fails. *)
Theorem ImportTasks_appends_own_rows_under_new_ids
    (ilike : string -> string -> bool) (userID : string) (payload : list Task.t) (w : World) :
  exists (r : result unit) (w' : World) (added : list Task.t),
    service.ImportTasks (repo := postgres.TaskRepository ilike) userID payload w = (r, w')
    /\ db_tasks (db w') = (db_tasks (db w) ++ added)%list
    /\ map Task.ID added = map (uuids w) (seq (drawn w) (length added))
    /\ Forall (fun row => Task.UserID row = userID) added
    /\ Forall2 (imported_as w userID) (take (length added) payload) added
    /\ match r with
       | Ok _ => length added = length payload
       | Err _ => (length added < length payload)%nat
       end.
Proof.
  destruct (Import_spec ilike userID payload w)
    as (r & w' & added & Hrun & _ & _ & Hrows & Hids & Hall & Hlen).
  exists r, w', added. repeat split; try done.
  clear -Hall. induction Hall as [|p row ps rows' Has _ IH]; constructor; [|done].
  by destruct Has.
Qed.

(** the forged payload of the scenario is stored under a new id, for u1 *)
Example ImportTasks_forged_payload :
  match service.ImportTasks (repo := scenario.repo) "u1" [scenario.forged] scenario.initial with
  | (r, w') =>
      r = Ok tt
      /\ db_tasks (db w')
         = [scenario.errand;
            Task.mk "6f1c2a9e-0000-4000-8000-000000000000" "Overwrite" ""
                    StatusPending PriorityMedium "u1"
                    (scenario.start + 2 + day) scenario.start (scenario.start + 1) None]
  end.
Proof. vm_compute. split; reflexivity. Qed.

(** ** The expiry sweep *)

(** What the sweep fetches: rows whose owner is the empty user id and whose
    due date falls on the very day seven days before the sweep. *)
Lemma sweep_fetches
    (ilike : string -> string -> bool) (w w' : World) (now : Z) (tasks : list Task.t) :
  service.GetAll (repo := postgres.TaskRepository ilike) ""
    (TaskFilters.mk "" "" (Some (AddDate now (-7))) "" "") w = (Ok tasks, w') ->
  Forall (fun task => Task.UserID task = ""
                      /\ date_of (Task.DueDate task) = date_of (AddDate now (-7))) tasks.
Proof.
  intros Hq. apply Forall_forall. intros r Hr.
  apply (GetAll_elem ilike _ _ _ _ Hq) in Hr as [_ Hr]. split.
  - by apply where_clause_user in Hr.
  - by apply (where_clause_due ilike _ _ (AddDate now (-7))) in Hr.
Qed.

(** C2, at the failing input: u1 has a task due ten days ago and one due
    three days ago; the sweep fetches nothing and both tasks stay. *)
Theorem expiry_sweep_keeps_task_due_10_days_ago :
  fst (worker.cleanupExpiredTasks (repo := scenario.repo) scenario.backlog) = Ok tt
  /\ fst (service.GetAll (repo := scenario.repo) ""
            (TaskFilters.mk "" "" (Some (AddDate scenario.start (-7))) "" "")
            (snd (time_Now scenario.backlog))) = Ok []
  /\ db_tasks (db (snd (worker.cleanupExpiredTasks (repo := scenario.repo) scenario.backlog)))
     = [scenario.due_10_days_ago; scenario.due_3_days_ago]
  /\ Task.DueDate scenario.due_10_days_ago < AddDate scenario.start (-7).
Proof. vm_compute. repeat split; reflexivity. Qed.

(** ** The analytics refresh *)



(** On the Redis cache and the PostgreSQL store, a hit in full: the store is
    left as it was, statement counter included, and the entry holds the
    snapshot that was cached, stamped and timed anew. *)
Lemma refresh_on_hit
    (ilike : string -> string -> bool) (userID period : string) (w : World)
    (cachedData : CachedAnalytics.t) (expiry : Z) :
  redis_up (redis w) = true ->
  redis_keys (redis w) !! cache.key userID period = Some (cachedData, expiry) ->
  cache.server_time w < expiry ->
  let w' := snd (worker.refresh (repo := postgres.TaskRepository ilike)
                   (cache := cache.RedisCache) userID period w) in
  db w' = db w
  /\ redis_keys (redis w') !! cache.key userID period
     = Some (CachedAnalytics.mk userID period (CachedAnalytics.Analytics cachedData)
               (clock w (ticks w)),
             clock w (S (ticks w)) + cache.analyticsTTL).
Proof.
  intros Hup Hkey Hlive w'. subst w'.
  rewrite refresh_run, GetUserAnalytics_run. simpl.
  unfold cache.GetUserAnalytics. rewrite Hup, Hkey. simpl.
  apply Z.ltb_lt in Hlive. rewrite Hlive.
  unfold store_snapshot. simpl. unfold cache.SetUserAnalytics. simpl. rewrite Hup. simpl.
  split; [done|]. by rewrite lookup_insert_eq.
Qed.


(** * Further properties of the code *)

Ltac in_list := repeat first [apply list_elem_of_here | apply list_elem_of_further].

(** ** The PostgreSQL repository: order, keys, round trips *)

Lemma order_by_spec (a b : Task.t) :
  postgres.order_by a b = true <-> ordered_before a b.
Proof.
  unfold postgres.order_by, ordered_before.
  rewrite !orb_true_iff, !andb_true_iff, !orb_true_iff, !andb_true_iff.
  rewrite !Z.ltb_lt, !Z.eqb_eq, Z.leb_le. tauto.
Qed.

Lemma order_by_total : Total (fun a b => Is_true (postgres.order_by a b)).
Proof.
  intros a b. rewrite !Is_true_true, !order_by_spec. unfold ordered_before. lia.
Qed.

Lemma order_by_transitive : Transitive (fun a b => Is_true (postgres.order_by a b)).
Proof.
  intros a b c. rewrite !Is_true_true, !order_by_spec. unfold ordered_before. lia.
Qed.

Lemma StronglySorted_weaken {A} (R S : A -> A -> Prop) (l : list A) :
  (forall x y, R x y -> S x y) -> StronglySorted R l -> StronglySorted S l.
Proof.
  intros HRS. induction 1 as [|x l Hl IH Hx]; constructor; [done|].
  eapply Forall_impl; [exact Hx|]. intros y. apply HRS.
Qed.

Lemma merge_sort_ordered (l : list Task.t) :
  StronglySorted ordered_before
    (merge_sort (fun a b => Is_true (postgres.order_by a b)) l).
Proof.
  eapply StronglySorted_weaken;
    [|apply (StronglySorted_merge_sort _ (Transitive0 := order_by_transitive)
               (Total0 := order_by_total))].
  intros x y. rewrite Is_true_true. apply order_by_spec.
Qed.





(** GET /api/tasks?status=bogus by u1: the filter reaches the store with a
    status that is no label of the enum, the query is refused although the
    connection is up, and the handler answers 500. *)
Example GetTasks_refuses_unknown_label :
  db_up (db scenario.initial) = true
  /\ fst (postgres.GetAll scenario.ilike (TaskFilters.mk "bogus" "" None "u1" "")
            scenario.initial)
     = Err (ErrWrap "failed to query tasks" ErrConstraint)
  /\ fst (handler.GetTasks (repo := scenario.repo) (fun _ => None)
            (handler.mkContext (Some "u1") ""
               (fun name => if bool_decide (name = "status") then "bogus" else "")
               None)
            scenario.initial)
     = (handler.StatusInternalServerError, handler.H_error "Failed to get tasks").
Proof. repeat apply conj; vm_compute; reflexivity. Qed.

Lemma existsb_id_false (rows : list Task.t) (id : string) :
  existsb (fun r => bool_decide (Task.ID r = id)) rows = false ->
  (id ∉ map Task.ID rows) /\ find (fun r => bool_decide (Task.ID r = id)) rows = None.
Proof.
  induction rows as [|r rows IH]; simpl.
  - intros _. split; [apply not_elem_of_nil|done].
  - destruct (bool_decide (Task.ID r = id)) eqn:Hr; simpl; [done|].
    apply bool_decide_eq_false in Hr. intros H. destruct (IH H) as [Hn Hf].
    split; [|done]. rewrite not_elem_of_cons. split; [congruence|done].
Qed.

Lemma find_app_none {A} (p : A -> bool) (l : list A) (x : A) :
  find p l = None -> p x = true -> find p (l ++ [x]) = Some x.
Proof.
  induction l as [|y l IH]; simpl.
  - by intros _ ->.
  - destruct (p y); [done|]. exact IH.
Qed.

(** The primary key holds: when the ids of the rows are pairwise distinct,
    they still are after any INSERT, UPDATE or DELETE of the repository,
    successful or not. *)
Theorem repository_keeps_ids_distinct
    (w : World) (task : Task.t) (id : string) :
  NoDup (ids w) ->
  NoDup (ids (snd (postgres.Create task w)))
  /\ NoDup (ids (snd (postgres.Update task w)))
  /\ NoDup (ids (snd (postgres.Delete id w))).
Proof.
  unfold ids. intros Hnd. repeat split.
  - unfold postgres.Create. simpl. destruct (db_up (db w)); simpl; [|done].
    destruct (existsb _ _) eqn:Hex; simpl; [done|].
    destruct (negb _ || negb _); simpl; [done|].
    rewrite map_app. simpl. apply NoDup_app. split; [done|]. split.
    + intros x Hx Hin. apply list_elem_of_singleton in Hin. subst x.
      by destruct (existsb_id_false _ _ Hex).
    + apply NoDup_singleton.
  - unfold postgres.Update. simpl. destruct (db_up (db w)); simpl; [|done].
    destruct (negb _ || negb _); simpl; [done|].
    destruct (negb (existsb _ _)); simpl; [done|].
    rewrite map_map.
    erewrite map_ext; [exact Hnd|].
    intros r. simpl. by destruct (postgres.update_matches task r).
  - unfold postgres.Delete. simpl. destruct (db_up (db w)); simpl; [|done].
    destruct (negb (existsb _ _)); simpl; [done|].
    revert Hnd. generalize (db_tasks (db w)). intros rows.
    induction rows as [|r rows IH]; simpl; [done|].
    rewrite NoDup_cons. intros [Hr Hnd].
    rewrite filter_cons. destruct (decide (Task.ID r <> id)); [|by apply IH].
    simpl. rewrite NoDup_cons. split; [|by apply IH].
    intros Hin. apply Hr. apply list_elem_of_fmap in Hin as (x & Hx & Hin).
    apply list_elem_of_filter in Hin as [_ Hin].
    apply list_elem_of_fmap. by exists x.
Qed.

Lemma repository_keeps_ids_distinct_witness :
  NoDup (ids (snd (postgres.Create scenario.chore scenario.initial)))
  /\ NoDup (ids (snd (postgres.Delete "t1" scenario.initial))).
Proof.
  assert (Hnd : NoDup (ids scenario.initial)).
  { unfold ids. simpl. apply NoDup_singleton. }
  destruct (repository_keeps_ids_distinct scenario.initial scenario.chore "t1" Hnd)
    as (Hc & _ & Hd).
  split; [exact Hc | exact Hd].
Defined.

(** what Create leaves in the store *)
Lemma Create_inserts_row (task : Task.t) (w : World) :
  match postgres.Create task w with
  | (Ok _, w') =>
      fst (postgres.GetByID (Task.ID task) w') = Ok (Task.set_CompletedAt None task)
      /\ db_tasks (db w') = (db_tasks (db w) ++ [Task.set_CompletedAt None task])%list
  | (Err _, w') => db_tasks (db w') = db_tasks (db w)
  end.
Proof.
  unfold postgres.Create. simpl. destruct (db_up (db w)) eqn:Hup; simpl; [|done].
  destruct (existsb _ _) eqn:Hex; simpl; [done|].
  destruct (negb _ || negb _); simpl; [done|].
  split; [|done]. unfold postgres.GetByID. simpl. rewrite Hup. simpl.
  destruct (existsb_id_false _ _ Hex) as [_ Hf].
  rewrite (find_app_none _ _ (postgres.inserted_row task) Hf); [done|].
  by apply bool_decide_eq_true.
Qed.

(** what Delete leaves in the store *)
Lemma Delete_removes_rows (id : string) (w : World) :
  match postgres.Delete id w with
  | (Ok _, w') =>
      fst (postgres.GetByID id w') = Err (ErrNew "task not found")
      /\ (forall r, r ∈ db_tasks (db w') <-> r ∈ db_tasks (db w) /\ Task.ID r <> id)
  | (Err _, w') => db_tasks (db w') = db_tasks (db w)
  end.
Proof.
  unfold postgres.Delete. simpl. destruct (db_up (db w)) eqn:Hup; simpl; [|done].
  destruct (negb (existsb _ _)); simpl; [done|].
  split.
  - unfold postgres.GetByID. simpl. rewrite Hup. simpl.
    destruct (find _ _) as [r|] eqn:Hf; [|done].
    apply find_holds in Hf as [Hid%bool_decide_eq_true Hin].
    apply list_elem_of_filter in Hin as [Hne _]. done.
  - intros r. rewrite list_elem_of_filter. tauto.
Qed.

(** INSERT, then SELECT by id: a task that Create accepts is found under its
    id, as it was given but with no completed timestamp, and it is the one
    row added; a task that Create refuses (connection down, id already taken,
    status or priority outside the enumerations) leaves the rows as they
    were. *)
Theorem Create_then_GetByID (task : Task.t) (w : World) :
  match postgres.Create task w with
  | (Ok _, w') =>
      fst (postgres.GetByID (Task.ID task) w') = Ok (Task.set_CompletedAt None task)
      /\ db_tasks (db w') = (db_tasks (db w) ++ [Task.set_CompletedAt None task])%list
  | (Err e, w') =>
      db_tasks (db w') = db_tasks (db w)
      /\ (e = ErrWrap "failed to create task" ErrDriver
          \/ e = ErrWrap "failed to create task" ErrConstraint)
  end.
Proof.
  pose proof (Create_inserts_row task w) as H.
  unfold postgres.Create in *. simpl in *.
  destruct (db_up (db w)); simpl in *; [|split; [done|by left]].
  destruct (existsb _ _ || _ || _); simpl in *; [split; [done|by right]|done].
Qed.

(** DELETE, then SELECT by id: after a successful Delete no row has the id
    and GetByID answers "task not found", while every row with another id is
    still there; a failed Delete (connection down, or no row with the id)
    leaves the rows as they were. *)
Theorem Delete_then_GetByID (id : string) (w : World) :
  match postgres.Delete id w with
  | (Ok _, w') =>
      fst (postgres.GetByID id w') = Err (ErrNew "task not found")
      /\ (forall r, r ∈ db_tasks (db w') <-> r ∈ db_tasks (db w) /\ Task.ID r <> id)
  | (Err e, w') =>
      db_tasks (db w') = db_tasks (db w)
      /\ (e = ErrWrap "failed to delete task" ErrDriver \/ e = ErrNew "task not found")
  end.
Proof.
  pose proof (Delete_removes_rows id w) as H.
  unfold postgres.Delete in *. simpl in *.
  destruct (db_up (db w)); simpl in *; [|split; [done|by left]].
  destruct (negb (existsb _ _)); simpl in *; [split; [done|by right]|done].
Qed.

(** UPDATE touches six columns only: whatever task it is given and whatever
    it answers, the rows afterwards are as many as before, in the same
    order, each with the id, owner, creation time and completed timestamp it
    had; and when it fails no row has changed at all. *)
Theorem Update_keeps_fixed_columns (task : Task.t) (w : World) :
  map fixed_columns (db_tasks (db (snd (postgres.Update task w))))
  = map fixed_columns (db_tasks (db w))
  /\ match postgres.Update task w with
     | (Ok _, _) => True
     | (Err _, w') => db_tasks (db w') = db_tasks (db w)
     end.
Proof.
  unfold postgres.Update. simpl. destruct (db_up (db w)); simpl; [|done].
  destruct (negb _ || negb _); simpl; [done|].
  destruct (negb (existsb _ _)); simpl; [done|].
  split; [|done]. rewrite map_map. apply map_ext.
  intros r. by destruct (postgres.update_matches task r).
Qed.

(** ** Creating, deleting, exporting *)

(** Create on a task with a title: the defaults are filled in, then the task
    goes to the repository, whose answer decides. *)
Lemma Create_prepared
    (repo : repository.TaskRepository) (task : Task.t) (w : World) :
  Task.Title task <> "" ->
  exists (t : Task.t) (w0 : World),
    service.Create task w = match repository.Create t w0 with
                            | (Ok _, w1) => (Ok t, w1)
                            | (Err e, w1) => (Err e, w1)
                            end
    /\ db w0 = db w
    /\ Task.ID t = Task.ID task /\ Task.UserID t = Task.UserID task
    /\ Task.Title t = Task.Title task
    /\ Task.Status t = (if bool_decide (Task.Status task = "")
                        then StatusPending else Task.Status task)
    /\ Task.Priority t = (if bool_decide (Task.Priority task = "")
                          then PriorityMedium else Task.Priority task)
    /\ Task.DueDate t = (if Task.DueDate task =? 0
                         then AddDate (clock w (ticks w)) 1 else Task.DueDate task)
    /\ Task.Description t = Task.Description task
    /\ Task.CreatedAt t = Task.CreatedAt task
    /\ Task.UpdatedAt t = Task.UpdatedAt task.
Proof.
  intros Hti. unfold service.Create, time_Now.
  destruct task as [i ti de st pr us du cr up co]. simpl in Hti.
  unfold try, bind, ret, fail. cbn. rewrite bool_decide_eq_false_2 by done.
  destruct (bool_decide (st = "")); cbn;
    destruct (bool_decide (pr = "")); cbn;
    destruct (du =? 0); cbn;
    match goal with
    | |- context [repository.Create ?T ?W] => exists T, W
    end;
    (split; [by destruct (repository.Create _ _) as [[[]|e] w1]|]); cbn; by repeat split.
Qed.

(** What CreateTask does with a task, whoever the body names as owner: a task
    without title is refused before the store or the clock is touched;
    otherwise the owner becomes the requester, a missing status becomes
    pending, a missing priority medium, a missing due date the next clock
    reading plus one day. Over the PostgreSQL store a task that is accepted
    is appended without completed timestamp and can then be read by its
    owner, and by nobody else; a task that is refused leaves the rows as they
    were. *)
Theorem CreateTask_stores_for_the_requester
    (ilike : string -> string -> bool) (userID other : string) (task : Task.t) (w : World) :
  let pg := postgres.TaskRepository ilike in
  match service.CreateTask (repo := pg) userID task w with
  | (Ok created, w') =>
      Task.Title task <> ""
      /\ Task.UserID created = userID
      /\ Task.ID created = Task.ID task
      /\ Task.Title created = Task.Title task
      /\ Task.Status created = (if bool_decide (Task.Status task = "")
                                then StatusPending else Task.Status task)
      /\ Task.Priority created = (if bool_decide (Task.Priority task = "")
                                  then PriorityMedium else Task.Priority task)
      /\ Task.DueDate created = (if Task.DueDate task =? 0
                                 then AddDate (clock w (ticks w)) 1 else Task.DueDate task)
      /\ db_tasks (db w') = (db_tasks (db w) ++ [Task.set_CompletedAt None created])%list
      /\ fst (service.GetUserTask (repo := pg) userID (Task.ID created) w')
         = Ok (Task.set_CompletedAt None created)
      /\ (if bool_decide (other = userID) then True
          else fst (service.GetUserTask (repo := pg) other (Task.ID created) w')
               = Err ErrAccessDenied)
  | (Err e, w') =>
      db_tasks (db w') = db_tasks (db w)
      /\ (if bool_decide (Task.Title task = "")
          then e = ErrInvalidTaskData /\ w' = w else True)
  end.
Proof.
  intros pg. unfold service.CreateTask.
  destruct (bool_decide (Task.Title task = "")) eqn:Hti.
  { unfold service.Create. destruct task. simpl in *. rewrite Hti.
    unfold fail. simpl. by split. }
  apply bool_decide_eq_false in Hti.
  destruct (Create_prepared pg (Task.set_UserID userID task) w)
    as (t & w0 & -> & Hdb & Hi & Hu & Ht & Hs & Hp & Hd & _);
    [by destruct task|].
  pose proof (Create_inserts_row t w0) as Hc. simpl.
  destruct (postgres.Create t w0) as [[[]|e] w1].
  - destruct Hc as [Hget Hrows]. rewrite <- Hdb.
    assert (Hup : db_up (db w1) = true).
    { revert Hget. unfold postgres.GetByID. simpl.
      by destruct (db_up (db w1)). }
    assert (Hfind : find (fun r => bool_decide (Task.ID r = Task.ID t)) (db_tasks (db w1))
                    = Some (Task.set_CompletedAt None t)).
    { revert Hget. unfold postgres.GetByID. simpl. rewrite Hup. simpl.
      destruct (find _ _); simpl; congruence. }
    unfold service.GetUserTask. rewrite !(GetByID_run (repo := pg)). simpl.
    rewrite !GetByID_up, Hfind by done. simpl.
    destruct task; simpl in *. rewrite Hu.
    rewrite (bool_decide_eq_true_2 (userID = userID)) by done.
    repeat split; try done.
    destruct (bool_decide (other = userID)) eqn:Ho; [done|].
    apply bool_decide_eq_false in Ho.
    by rewrite bool_decide_eq_false_2 by congruence.
  - by rewrite <- Hdb.
Qed.

Ltac status_codes :=
  unfold handler.StatusOK, handler.StatusCreated, handler.StatusUnauthorized,
    handler.StatusBadRequest, handler.StatusForbidden, handler.StatusNotFound,
    handler.StatusInternalServerError in *.

Lemma GetByID_keeps_rows (id : string) (w w1 : World) (r : result Task.t) :
  postgres.GetByID id w = (r, w1) -> db_tasks (db w1) = db_tasks (db w).
Proof.
  unfold postgres.GetByID. simpl.
  destruct (db_up (db w)); simpl; [destruct (find _ _)|]; by intros [= _ <-].
Qed.

(** DELETE /tasks/{id}, then GET /tasks/{id}: when DeleteTask answers 200 the
    task is gone for every reader, GetTask answering 404; any other answer of
    DeleteTask is one of 401, 400, 403, 404, 500 and leaves the rows as they
    were. *)
Theorem DeleteTask_then_GetTask
    (ilike : string -> string -> bool) (c : handler.Context) (reader : string)
    (query : string -> string) (sent : option Task.t) (w : World) :
  let pg := postgres.TaskRepository ilike in
  match handler.DeleteTask (repo := pg) c w with
  | ((code, answer), w') =>
      if code =? handler.StatusOK then
        answer = handler.H_message "Task deleted successfully"
        /\ fst (handler.GetTask (repo := pg)
                  (handler.mkContext (Some reader) (handler.Param_id c) query sent) w')
           = (handler.StatusNotFound, handler.H_error "Task not found")
      else
        db_tasks (db w') = db_tasks (db w)
        /\ code ∈ [handler.StatusUnauthorized; handler.StatusBadRequest;
                   handler.StatusForbidden; handler.StatusNotFound;
                   handler.StatusInternalServerError]
  end.
Proof.
  intros pg. unfold handler.DeleteTask. status_codes.
  destruct (handler.user_id c) as [userID|]; simpl; [|split; [done|in_list]].
  destruct (bool_decide (handler.Param_id c = "")) eqn:Hid; simpl;
    [split; [done|in_list]|].
  apply bool_decide_eq_false in Hid.
  unfold service.DeleteUserTask, service.Delete. unfold try, bind, fail.
  rewrite (GetByID_run (repo := pg)). simpl.
  destruct (postgres.GetByID (handler.Param_id c) w) as [[task|e] w1] eqn:Hget;
    pose proof (GetByID_keeps_rows _ _ _ _ Hget) as Hrows1;
    [|simpl; split; [done|in_list]].
  destruct (bool_decide (Task.UserID task = userID)) eqn:Hown; simpl;
    [|split; [done|in_list]].
  rewrite bool_decide_not, Hown. simpl.
  pose proof (Delete_removes_rows (handler.Param_id c) w1) as Hdel.
  destruct (postgres.Delete (handler.Param_id c) w1) as [[[]|e] w2]; simpl.
  - split; [done|]. destruct Hdel as [Hgone _].
    unfold handler.GetTask. simpl. rewrite bool_decide_eq_false_2 by done.
    unfold service.GetUserTask. rewrite (GetByID_run (repo := pg)). simpl.
    destruct (postgres.GetByID (handler.Param_id c) w2) as [[t|e] w3];
      simpl in *; [discriminate|done].
  - destruct e; simpl; (split; [congruence|in_list]).
Qed.

(** ExportUserTasks gives exactly the rows of the user, in the order of the
    ORDER BY clause, and fails only when the connection is down. *)
Theorem ExportUserTasks_gives_the_users_rows
    (ilike : string -> string -> bool) (userID : string) (w : World) :
  match service.ExportUserTasks (repo := postgres.TaskRepository ilike) userID w with
  | (Ok tasks, _) =>
      (forall task, task ∈ tasks <-> task ∈ db_tasks (db w) /\ Task.UserID task = userID)
      /\ StronglySorted ordered_before tasks
  | (Err _, _) => db_up (db w) = false
  end.
Proof.
  unfold service.ExportUserTasks, service.Export. simpl.
  destruct (postgres.GetAll ilike _ w) as [[tasks|e] w'] eqn:Hq.
  - split.
    + intros task. rewrite (GetAll_elem ilike _ _ _ _ Hq).
      unfold postgres.where_clause. simpl. rewrite !andb_true_r.
      by rewrite bool_decide_eq_true.
    + revert Hq. unfold postgres.GetAll. simpl. destruct (db_up (db w)); simpl; [|done].
      intros [= <- _]. apply merge_sort_ordered.
  - revert Hq. unfold postgres.GetAll. simpl. by destruct (db_up (db w)).
Qed.

(** GetActiveUsers returns each owner of a task of the query once: the list
    has no duplicates and holds exactly the user ids of the tasks that
    GetAll returns for the empty filter; a failure of that query is
    returned as it is. *)
Theorem GetActiveUsers_distinct_owners (repo : repository.TaskRepository) (w : World) :
  match repository.GetAll TaskFilters.zero w with
  | (Ok tasks, w1) =>
      exists users : list string,
        service.GetActiveUsers w = (Ok users, w1)
        /\ NoDup users
        /\ (forall u, u ∈ users <-> u ∈ map Task.UserID tasks)
  | (Err e, w1) => service.GetActiveUsers w = (Err e, w1)
  end.
Proof.
  unfold service.GetActiveUsers. unfold try, bind, ret, fail.
  destruct (repository.GetAll TaskFilters.zero w) as [[tasks|e] w1]; [|done].
  eexists. split; [reflexivity|]. split; [apply NoDup_elements|].
  intros u. by rewrite elem_of_elements, elem_of_list_to_set.
Qed.

(** Over the PostgreSQL repository the empty filter selects the rows of the
    empty user id, so GetActiveUsers returns no user id other than the empty
    one: its answer is the empty list or the list of the empty string. *)
Theorem GetActiveUsers_only_the_empty_id
    (ilike : string -> string -> bool) (w : World) :
  match service.GetActiveUsers (repo := postgres.TaskRepository ilike) w with
  | (Ok users, _) => users = [] \/ users = [""]
  | (Err _, _) => db_up (db w) = false
  end.
Proof.
  unfold service.GetActiveUsers. unfold try, bind, ret, fail. simpl.
  destruct (postgres.GetAll ilike TaskFilters.zero w) as [[tasks|e] w1] eqn:Hq.
  2:{ revert Hq. unfold postgres.GetAll. simpl. by destruct (db_up (db w)). }
  assert (Hall : Forall (fun t => Task.UserID t = "") tasks).
  { apply Forall_forall. intros r Hr.
    apply (GetAll_elem ilike _ _ _ _ Hq) in Hr as [_ Hr].
    by apply where_clause_user in Hr. }
  clear Hq. destruct tasks as [|t tasks]; [left; apply elements_empty|].
  right.
  assert (Hset : (list_to_set (map Task.UserID (t :: tasks)) : gset string) = {[ "" ]}).
  { apply set_eq. intros u.
    rewrite elem_of_list_to_set, elem_of_singleton, list_elem_of_fmap. split.
    - intros (y & -> & Hy). by apply (proj1 (Forall_forall _ _) Hall).
    - intros ->. exists t. split; [|apply list_elem_of_here].
      symmetry. apply (proj1 (Forall_forall _ _) Hall), list_elem_of_here. }
  rewrite Hset. apply elements_singleton.
Qed.

(** ** The counters of the analytics loop *)

Lemma incr_lookup (k s : string) (m : gmap string Z) :
  service.incr k m !! s
  = if bool_decide (k = s) then Some (default 0 (m !! s) + 1) else m !! s.
Proof.
  unfold service.incr. rewrite lookup_insert.
  destruct (decide (k = s)) as [->|Hne].
  - by rewrite bool_decide_eq_true_2.
  - by rewrite bool_decide_eq_false_2.
Qed.

(** one round of the loop, counter by counter *)
Lemma count_task_step (task : Task.t) (c : service.counters) (w : World) :
  exists (c1 : service.counters) (w1 : World),
    service.count_task task c w = (Ok c1, w1)
    /\ clock w1 = clock w
    /\ (ticks w1 = ticks w \/ ticks w1 = S (ticks w))
    /\ service.statusCount c1 = service.incr (Task.Status task) (service.statusCount c)
    /\ service.priorityCount c1
       = service.incr (Task.Priority task) (service.priorityCount c)
    /\ service.totalCompletionTime c1
       = (if done_with_completion task
          then (service.totalCompletionTime c + hours_spent task)%Q
          else service.totalCompletionTime c)
    /\ service.overdueTasks c1
       = service.overdueTasks c
         + (if open_and_due_before (clock w (ticks w)) task then 1 else 0).
Proof.
  unfold service.count_task, done_with_completion, hours_spent, open_and_due_before,
    time_Now.
  unfold try, bind, ret. rewrite bool_decide_not.
  destruct (Task.CompletedAt task) as [completedAt|];
    destruct (bool_decide (Task.Status task = StatusDone)); simpl;
    try destruct (Task.DueDate task <? clock w (ticks w)); simpl;
    do 2 eexists; (split; [reflexivity|]); simpl;
    repeat split; try done; try lia; by (left + right).
Qed.

Lemma counted_lookup (k s : string) (m m' : gmap string Z) (n : Z) :
  0 <= n ->
  m' !! s = (if n =? 0 then service.incr k m !! s
             else Some (default 0 (service.incr k m !! s) + n)) ->
  m' !! s = (if (if bool_decide (k = s) then 1 else 0) + n =? 0 then m !! s
             else Some (default 0 (m !! s) + ((if bool_decide (k = s) then 1 else 0) + n))).
Proof.
  intros Hn ->. rewrite incr_lookup.
  destruct (bool_decide (k = s)); simpl.
  - destruct (n =? 0) eqn:Hz.
    + apply Z.eqb_eq in Hz. subst n. simpl. by rewrite Z.add_0_r.
    + apply Z.eqb_neq in Hz.
      replace (1 + n =? 0) with false by (symmetry; apply Z.eqb_neq; lia).
      f_equal. lia.
  - rewrite Z.add_0_l. done.
Qed.

(** The loop over a list of tasks: the two maps count the tasks by status
    and by priority, on top of what they held, and the completion time adds
    up the hours of the done tasks with completion data. *)
Lemma count_tasks_maps (tasks : list Task.t) (c : service.counters) (w : World) :
  exists (c' : service.counters) (w' : World),
    service.count_tasks tasks c w = (Ok c', w')
    /\ (forall s, service.statusCount c' !! s
                  = if count (has_status s) tasks =? 0 then service.statusCount c !! s
                    else Some (default 0 (service.statusCount c !! s)
                               + count (has_status s) tasks))
    /\ (forall p, service.priorityCount c' !! p
                  = if count (has_priority p) tasks =? 0 then service.priorityCount c !! p
                    else Some (default 0 (service.priorityCount c !! p)
                               + count (has_priority p) tasks))
    /\ (service.totalCompletionTime c'
        == service.totalCompletionTime c + completion_hours tasks)%Q.
Proof.
  revert c w. induction tasks as [|task tasks IH]; intros c w.
  - exists c, w. unfold count, ret. simpl. repeat split; try done. ring.
  - destruct (count_task_step task c w) as (c1 & w1 & Hstep & _ & _ & Hs & Hp & Ht & _).
    destruct (IH c1 w1) as (c' & w' & Hrun & Hs' & Hp' & Ht').
    exists c', w'. simpl. unfold try, bind. rewrite Hstep, Hrun.
    split; [done|]. split; [|split].
    + intros s. rewrite count_cons. unfold has_status at 1 3.
      apply counted_lookup; [apply count_nonneg|]. rewrite <- Hs. apply Hs'.
    + intros p0. rewrite count_cons. unfold has_priority at 1 3.
      apply counted_lookup; [apply count_nonneg|]. rewrite <- Hp. apply Hp'.
    + rewrite Ht', Ht. simpl. destruct (done_with_completion task); ring.
Qed.

(** compute reads the clock for GeneratedAt, then runs the loop *)
Lemma compute_counters (period : string) (tasks : list Task.t) (w : World) :
  exists (c : service.counters) (w' : World),
    service.count_tasks tasks service.no_counts (snd (time_Now w)) = (Ok c, w')
    /\ service.compute period tasks w
       = (Ok (service.snapshot period (clock w (ticks w)) c), w').
Proof.
  destruct (count_tasks_spec tasks service.no_counts (snd (time_Now w)))
    as (c & w' & Hrun & _).
  exists c, w'. split; [done|].
  unfold service.compute, try, bind, ret. simpl in *. by rewrite Hrun.
Qed.

(** In every computed snapshot StatusCount has a key for exactly the
    statuses that occur among the tasks, with the number of tasks of that
    status as value, and PriorityCount likewise for the priorities; the
    snapshot carries the period asked for and the clock reading taken before
    the loop. With no task both maps are empty. *)
Theorem snapshot_counts_by_status_and_priority
    (period : string) (tasks : list Task.t) (w : World) :
  exists (a : Analytics.t) (w' : World),
    service.compute period tasks w = (Ok a, w')
    /\ (forall s, Analytics.StatusCount a !! s
                  = if count (has_status s) tasks =? 0 then None
                    else Some (count (has_status s) tasks))
    /\ (forall p, Analytics.PriorityCount a !! p
                  = if count (has_priority p) tasks =? 0 then None
                    else Some (count (has_priority p) tasks))
    /\ Analytics.Period a = period
    /\ Analytics.GeneratedAt a = clock w (ticks w).
Proof.
  destruct (compute_counters period tasks w) as (c & w' & Hloop & Hrun).
  destruct (count_tasks_maps tasks service.no_counts (snd (time_Now w)))
    as (c0 & w0 & Hloop0 & Hs & Hp & _).
  rewrite Hloop in Hloop0. injection Hloop0 as <- <-.
  eexists _, w'. split; [exact Hrun|]. simpl.
  split; [|split; [|done]].
  - intros s. rewrite Hs. simpl. by rewrite lookup_empty.
  - intros p0. rewrite Hp. simpl. by rewrite lookup_empty.
Qed.

(** The average completion time of every computed snapshot is the sum of
    the hours from creation to completion over the done tasks with completion
    data, divided by their number; it is 0 when there is none. *)
Theorem snapshot_average_completion_time
    (period : string) (tasks : list Task.t) (w : World) :
  exists (a : Analytics.t) (w' : World),
    service.compute period tasks w = (Ok a, w')
    /\ (Analytics.AvgCompletionTime a ==
        if count done_with_completion tasks =? 0 then 0
        else completion_hours tasks / inject_Z (count done_with_completion tasks))%Q.
Proof.
  destruct (compute_counters period tasks w) as (c & w' & Hloop & Hrun).
  destruct (count_tasks_maps tasks service.no_counts (snd (time_Now w)))
    as (c0 & w0 & Hloop0 & _ & _ & Ht).
  destruct (count_tasks_spec tasks service.no_counts (snd (time_Now w)))
    as (c1 & w1 & Hloop1 & _ & _ & _ & Hdone & _).
  rewrite Hloop in Hloop0, Hloop1. injection Hloop0 as <- <-. injection Hloop1 as <- <-.
  eexists _, w'. split; [exact Hrun|].
  change (service.completedTasks service.no_counts) with 0 in Hdone.
  rewrite Z.add_0_l in Hdone.
  unfold service.snapshot, Analytics.AvgCompletionTime. rewrite Hdone.
  pose proof (count_nonneg done_with_completion tasks) as Hge.
  destruct (count done_with_completion tasks =? 0) eqn:Hz.
  - apply Z.eqb_eq in Hz. rewrite Hz. reflexivity.
  - apply Z.eqb_neq in Hz.
    replace (0 <? count done_with_completion tasks) with true
      by (symmetry; apply Z.ltb_lt; lia).
    apply Qdiv_comp; [|reflexivity]. rewrite Ht.
    change (service.totalCompletionTime service.no_counts) with 0%Q. ring.
Qed.

Lemma open_and_due_before_mono (x y : Z) (task : Task.t) :
  x <= y -> open_and_due_before x task = true -> open_and_due_before y task = true.
Proof.
  unfold open_and_due_before. rewrite !andb_true_iff, !Z.ltb_lt.
  intros Hxy [Hopen Hdue]. split; [done|lia].
Qed.

Lemma count_tasks_overdue
    (tasks : list Task.t) (c : service.counters) (w : World) (lo hi : Z) :
  (forall n, (ticks w <= n < ticks w + length tasks)%nat -> lo <= clock w n <= hi) ->
  exists (c' : service.counters) (w' : World),
    service.count_tasks tasks c w = (Ok c', w')
    /\ service.overdueTasks c + count (open_and_due_before lo) tasks
       <= service.overdueTasks c'
       <= service.overdueTasks c + count (open_and_due_before hi) tasks.
Proof.
  revert c w. induction tasks as [|task tasks IH]; intros c w Hclock.
  - exists c, w. unfold count, ret. simpl. split; [done|lia].
  - destruct (count_task_step task c w)
      as (c1 & w1 & Hstep & Hck & Htk & _ & _ & _ & Hov).
    destruct (IH c1 w1) as (c' & w' & Hrun & Hle).
    { intros n Hn. rewrite Hck. apply Hclock. simpl. destruct Htk; lia. }
    exists c', w'. simpl. unfold try, bind. rewrite Hstep, Hrun. split; [done|].
    rewrite !count_cons, Hov in *.
    assert (Hr : lo <= clock w (ticks w) <= hi) by (apply Hclock; simpl; lia).
    pose proof (open_and_due_before_mono lo (clock w (ticks w)) task (proj1 Hr)) as Hlo.
    pose proof (open_and_due_before_mono (clock w (ticks w)) hi task (proj2 Hr)) as Hhi.
    destruct (open_and_due_before lo task), (open_and_due_before (clock w (ticks w)) task),
      (open_and_due_before hi task);
      try (specialize (Hlo eq_refl)); try (specialize (Hhi eq_refl)); try discriminate; lia.
Qed.

(** The overdue count of a snapshot counts tasks that are not done, each
    against the clock reading taken when the loop reaches it: if the readings
    taken during the loop lie between [lo] and [hi], the count lies between
    the number of open tasks due before [lo] and the number of open tasks due
    before [hi]; a done task is never counted. *)
Theorem snapshot_overdue_between
    (period : string) (tasks : list Task.t) (w : World) (lo hi : Z) :
  (forall n, (ticks w < n <= ticks w + length tasks)%nat -> lo <= clock w n <= hi) ->
  exists (a : Analytics.t) (w' : World),
    service.compute period tasks w = (Ok a, w')
    /\ count (open_and_due_before lo) tasks
       <= Analytics.OverdueTasks a
       <= count (open_and_due_before hi) tasks.
Proof.
  intros Hclock.
  destruct (compute_counters period tasks w) as (c & w' & Hloop & Hrun).
  destruct (count_tasks_overdue tasks service.no_counts (snd (time_Now w)) lo hi)
    as (c0 & w0 & Hloop0 & Hle).
  { intros n Hn. simpl in *. apply Hclock. lia. }
  rewrite Hloop in Hloop0. injection Hloop0 as <- <-.
  eexists _, w'. split; [exact Hrun|]. simpl in *. lia.
Qed.

Lemma snapshot_overdue_between_witness :
  exists (a : Analytics.t) (w' : World),
    service.compute "week"
      [scenario.due_10_days_ago; scenario.chore; scenario.due_3_days_ago]
      scenario.backlog = (Ok a, w')
    /\ Analytics.OverdueTasks a = 2.
Proof.
  destruct (snapshot_overdue_between "week"
              [scenario.due_10_days_ago; scenario.chore; scenario.due_3_days_ago]
              scenario.backlog scenario.start (scenario.start + 3))
    as (a & w' & Hrun & Hle).
  - intros n Hn. simpl in *. unfold scenario.clock. lia.
  - exists a, w'. split; [exact Hrun|].
    change (count (open_and_due_before scenario.start)
              [scenario.due_10_days_ago; scenario.chore; scenario.due_3_days_ago])
      with 2 in Hle.
    change (count (open_and_due_before (scenario.start + 3))
              [scenario.due_10_days_ago; scenario.chore; scenario.due_3_days_ago])
      with 2 in Hle.
    lia.
Defined.

(** ** The Redis cache *)

Lemma prefix_app (a x y : string) :
  String.prefix (a +:+ x) (a +:+ y) = String.prefix x y.
Proof.
  induction a as [|ch a IH]; simpl; [done|].
  by destruct (Ascii.ascii_dec ch ch).
Qed.

Lemma prefix_of_key (userID period : string) :
  String.prefix (cache.key userID "") (cache.key userID period) = true.
Proof.
  unfold cache.key. rewrite !prefix_app. simpl. by destruct period.
Qed.

(** SET, then GET: a snapshot that SetUserAnalytics has stored is what
    GetUserAnalytics returns for its user and period for six hours of the
    server's clock, and a miss from then on. *)
Theorem SetUserAnalytics_then_GetUserAnalytics
    (analytics : CachedAnalytics.t) (w w2 : World) :
  redis_up (redis w) = true ->
  redis w2 = redis (snd (cache.SetUserAnalytics analytics w)) ->
  fst (cache.SetUserAnalytics analytics w) = Ok tt
  /\ cache.GetUserAnalytics (CachedAnalytics.UserID analytics)
       (CachedAnalytics.Period analytics) w2
     = (Ok (if cache.server_time w2 <? cache.server_time w + 6 * hour
            then Some analytics else None), w2).
Proof.
  intros Hup Hw2. unfold cache.SetUserAnalytics in *. rewrite Hup in *. simpl in *.
  split; [done|]. unfold cache.GetUserAnalytics. rewrite Hw2. simpl.
  rewrite lookup_insert_eq. simpl. unfold cache.analyticsTTL.
  by destruct (cache.server_time w2 <? cache.server_time w + 6 * hour).
Qed.

Lemma SetUserAnalytics_then_GetUserAnalytics_witness :
  fst (cache.GetUserAnalytics "u1" "week"
         (snd (cache.SetUserAnalytics (fst scenario.old_entry) scenario.initial)))
  = Ok (Some (fst scenario.old_entry)).
Proof.
  destruct (SetUserAnalytics_then_GetUserAnalytics (fst scenario.old_entry)
              scenario.initial
              (snd (cache.SetUserAnalytics (fst scenario.old_entry) scenario.initial))
              eq_refl eq_refl) as [_ Hget].
  change (CachedAnalytics.UserID (fst scenario.old_entry)) with "u1" in Hget.
  change (CachedAnalytics.Period (fst scenario.old_entry)) with "week" in Hget.
  rewrite Hget. reflexivity.
Defined.

(** InvalidateUserAnalytics removes every entry of the user: afterwards
    GetUserAnalytics misses for that user whatever the period, and an entry
    whose key does not start with the user's key prefix is kept as it was. *)
Theorem InvalidateUserAnalytics_clears_the_user
    (userID period other : string) (w : World) :
  redis_up (redis w) = true ->
  let w' := snd (cache.InvalidateUserAnalytics userID w) in
  fst (cache.InvalidateUserAnalytics userID w) = Ok tt
  /\ cache.GetUserAnalytics userID period w' = (Ok None, w')
  /\ (if String.prefix (cache.key userID "") other then True
      else redis_keys (redis w') !! other = redis_keys (redis w) !! other).
Proof.
  intros Hup w'. subst w'. unfold cache.InvalidateUserAnalytics. rewrite Hup. simpl.
  split; [done|]. split.
  - unfold cache.GetUserAnalytics. simpl.
    rewrite map_lookup_filter.
    destruct (redis_keys (redis w) !! cache.key userID period) as [[c e]|]; simpl; [|done].
    rewrite option_guard_False; [done|].
    intros Hn. apply Hn. apply Is_true_true, prefix_of_key.
  - destruct (String.prefix (cache.key userID "") other) eqn:Hpre; [done|].
    rewrite map_lookup_filter.
    destruct (redis_keys (redis w) !! other) as [x|]; simpl; [|done].
    rewrite option_guard_True; [done|].
    intros Hp%Is_true_true. simpl in Hp. congruence.
Qed.

Lemma InvalidateUserAnalytics_clears_the_user_witness :
  fst (cache.GetUserAnalytics "u1" "week"
         (snd (cache.InvalidateUserAnalytics "u1" scenario.stale))) = Ok None.
Proof.
  destruct (InvalidateUserAnalytics_clears_the_user "u1" "week" "" scenario.stale eq_refl)
    as (_ & Hget & _).
  by rewrite Hget.
Defined.

Lemma list_ascii_app (s t : string) :
  String.list_ascii_of_string (s +:+ t) = (String.list_ascii_of_string s ++ String.list_ascii_of_string t)%list.
Proof. induction s as [|ch s IH]; simpl; [done|]. by rewrite IH. Qed.

Lemma list_ascii_inj (s t : string) :
  String.list_ascii_of_string s = String.list_ascii_of_string t -> s = t.
Proof.
  intros H. rewrite <- (String.string_of_list_ascii_of_string s), H.
  apply String.string_of_list_ascii_of_string.
Qed.

(** For the three periods of the service a cache key names one user and one
    period only. *)
Lemma key_of_period_inj (userID userID' period period' : string) :
  period ∈ worker.periods -> period' ∈ worker.periods ->
  cache.key userID period = cache.key userID' period' ->
  userID = userID' /\ period = period'.
Proof.
  intros Hp Hp' Hkey. unfold cache.key in Hkey.
  apply (inj (String.app "analytics:")) in Hkey.
  apply (f_equal String.list_ascii_of_string) in Hkey.
  rewrite !list_ascii_app in Hkey.
  unfold worker.periods in *.
  repeat (apply elem_of_cons in Hp as [->|Hp]);
    try (by apply elem_of_nil in Hp);
    repeat (apply elem_of_cons in Hp' as [->|Hp']);
    try (by apply elem_of_nil in Hp');
    try (apply app_inj_2 in Hkey as [Hu _]; [|done];
         split; [by apply list_ascii_inj|done]);
    apply (f_equal last) in Hkey; rewrite !last_app in Hkey; simpl in Hkey;
    discriminate Hkey.
Qed.

(** Caching a snapshot for one user and period leaves alone what is cached
    for every other user or period, as long as the periods are among day,
    week and month; with other periods two requests can share a key. *)
Theorem SetUserAnalytics_keeps_other_entries
    (analytics : CachedAnalytics.t) (userID period : string) (w : World) :
  CachedAnalytics.Period analytics ∈ worker.periods ->
  period ∈ worker.periods ->
  (CachedAnalytics.UserID analytics, CachedAnalytics.Period analytics) <> (userID, period) ->
  redis_keys (redis (snd (cache.SetUserAnalytics analytics w))) !! cache.key userID period
  = redis_keys (redis w) !! cache.key userID period
  /\ cache.key "a:b" "c" = cache.key "a" "b:c".
Proof.
  intros Hp Hp' Hne. split; [|reflexivity].
  unfold cache.SetUserAnalytics. destruct (redis_up (redis w)); simpl; [|done].
  apply lookup_insert_ne. intros Hkey.
  apply key_of_period_inj in Hkey as [<- <-]; done.
Qed.

Lemma SetUserAnalytics_keeps_other_entries_witness :
  redis_keys (redis (snd (cache.SetUserAnalytics
                            (CachedAnalytics.mk "u2" "day" scenario.old_snapshot 0)
                            scenario.stale))) !! cache.key "u1" "week"
  = Some scenario.old_entry.
Proof.
  destruct (SetUserAnalytics_keeps_other_entries
              (CachedAnalytics.mk "u2" "day" scenario.old_snapshot 0) "u1" "week"
              scenario.stale) as [Hkeep _].
  - unfold worker.periods. simpl. in_list.
  - unfold worker.periods. in_list.
  - simpl. congruence.
  - rewrite Hkeep. vm_compute. reflexivity.
Defined.

Lemma GetAll_keeps_cache_and_clock
    (ilike : string -> string -> bool) (filters : TaskFilters.t) (w w' : World)
    (r : result (list Task.t)) :
  postgres.GetAll ilike filters w = (r, w') ->
  redis w' = redis w /\ clock w' = clock w /\ ticks w' = ticks w
  /\ db_tasks (db w') = db_tasks (db w) /\ db_up (db w') = db_up (db w).
Proof.
  unfold postgres.GetAll. simpl. destruct (db_up (db w)) eqn:Hup; simpl;
    [destruct (postgres.enum_parameters filters); simpl|];
    intros [= _ <-]; simpl; by rewrite ?Hup.
Qed.

(** Asking again is a hit: when the cache answers and GetUserAnalytics has
    returned a snapshot, the same request made at once returns the same
    snapshot and changes nothing; in particular it sends no statement to the
    store. *)
Theorem GetUserAnalytics_again_is_a_hit
    (ilike : string -> string -> bool) (userID period : string) (w w1 : World)
    (a : Analytics.t) :
  redis_up (redis w) = true ->
  service.GetUserAnalytics (repo := postgres.TaskRepository ilike)
    (cache := cache.RedisCache) userID period w = (Ok a, w1) ->
  service.GetUserAnalytics (repo := postgres.TaskRepository ilike)
    (cache := cache.RedisCache) userID period w1 = (Ok a, w1).
Proof.
  intros Hup. rewrite !GetUserAnalytics_run. simpl.
  assert (Hhit : forall (w0 : World) (c : CachedAnalytics.t) (e : Z),
            redis_up (redis w0) = true ->
            redis_keys (redis w0) !! cache.key userID period = Some (c, e) ->
            cache.server_time w0 < e ->
            cache.GetUserAnalytics userID period w0 = (Ok (Some c), w0)).
  { intros w0 c e Hup0 Hk Hlive. unfold cache.GetUserAnalytics.
    rewrite Hup0, Hk. simpl. apply Z.ltb_lt in Hlive. by rewrite Hlive. }
  assert (Hmiss :
    match postgres.GetAll ilike (TaskFilters.mk "" "" None userID "") w with
    | (Err e, w2) => (Err e, w2)
    | (Ok tasks, w2) =>
        match service.compute period tasks w2 with
        | (Ok a0, w3) => (Ok a0, store_snapshot (cache := cache.RedisCache)
                                   userID period a0 w3)
        | (Err e, w3) => (Err e, w3)
        end
    end = (Ok a, w1) ->
    cache.GetUserAnalytics userID period w1
    = (Ok (Some (CachedAnalytics.mk userID period a (clock w1 (pred (ticks w1))))), w1)).
  { destruct (postgres.GetAll ilike _ w) as [[tasks|e] w2] eqn:Hq; [|discriminate].
    apply GetAll_keeps_cache_and_clock in Hq as (Hr2 & _).
    destruct (compute_spec period tasks w2) as (c & w3 & Hc & _ & Hr3 & _).
    rewrite Hc. unfold store_snapshot. simpl. unfold cache.SetUserAnalytics. simpl.
    rewrite Hr3, Hr2, Hup. simpl. intros [= <- <-].
    eapply Hhit; simpl; [done|apply lookup_insert_eq|].
    unfold cache.server_time, cache.analyticsTTL, hour. simpl. lia. }
  unfold cache.GetUserAnalytics at 1. rewrite Hup. simpl.
  destruct (redis_keys (redis w) !! cache.key userID period) as [[c e]|] eqn:Hk.
  - destruct (cache.server_time w <? e) eqn:Hlive.
    + intros [= <- <-]. apply Z.ltb_lt in Hlive. by rewrite (Hhit w c e).
    + intros H. by rewrite (Hmiss H).
  - intros H. by rewrite (Hmiss H).
Qed.

Lemma GetUserAnalytics_again_is_a_hit_witness :
  let first := service.GetUserAnalytics (repo := scenario.repo) (cache := cache.RedisCache)
                 "u1" "week" scenario.initial in
  service.GetUserAnalytics (repo := scenario.repo) (cache := cache.RedisCache)
    "u1" "week" (snd first) = first
  /\ db_calls (db (snd first)) = 1%nat.
Proof.
  intros first.
  assert (Hx : exists a, fst first = Ok a) by (vm_compute; eexists; reflexivity).
  destruct Hx as [a Ha]. pose proof (run_result first a Ha) as Hrun.
  split; [|vm_compute; reflexivity].
  rewrite Hrun at 2.
  exact (GetUserAnalytics_again_is_a_hit scenario.ilike "u1" "week" scenario.initial
           (snd first) a eq_refl Hrun).
Defined.

(** ** The background jobs *)

Lemma same_id_same_row (rows : list Task.t) (r t : Task.t) :
  NoDup (map Task.ID rows) -> r ∈ rows -> t ∈ rows -> Task.ID r = Task.ID t -> r = t.
Proof.
  induction rows as [|x rows IH]; simpl; [by intros _ ?%elem_of_nil|].
  rewrite NoDup_cons. intros [Hx Hnd] Hr Ht Hid.
  apply elem_of_cons in Hr as [->|Hr]; apply elem_of_cons in Ht as [->|Ht]; try done.
  - exfalso. apply Hx. rewrite Hid. apply list_elem_of_fmap. by exists t.
  - exfalso. apply Hx. rewrite <- Hid. apply list_elem_of_fmap. by exists r.
  - by apply IH.
Qed.

Lemma filter_keeps_ids_distinct (id : string) (rows : list Task.t) :
  NoDup (map Task.ID rows) ->
  NoDup (map Task.ID (filter (fun r => Task.ID r <> id) rows)).
Proof.
  induction rows as [|r rows IH]; simpl; [done|].
  rewrite NoDup_cons. intros [Hr Hnd].
  rewrite filter_cons. destruct (decide (Task.ID r <> id)); [|by apply IH].
  simpl. rewrite NoDup_cons. split; [|by apply IH].
  intros Hin. apply Hr. apply list_elem_of_fmap in Hin as (x & Hx & Hin).
  apply list_elem_of_filter in Hin as [_ Hin].
  apply list_elem_of_fmap. by exists x.
Qed.

(** A delete through the service, asked by [userID]: the ids stay distinct
    and no row of another owner goes away. *)
Lemma Delete_spares_other_owners
    (ilike : string -> string -> bool) (taskID userID : string) (w : World) :
  NoDup (ids w) ->
  let w' := snd (service.Delete (repo := postgres.TaskRepository ilike) taskID userID w) in
  NoDup (ids w')
  /\ (forall r, Task.UserID r <> userID -> r ∈ db_tasks (db w) -> r ∈ db_tasks (db w')).
Proof.
  unfold ids. intros Hnd. unfold service.Delete, try, bind, fail.
  rewrite (GetByID_run (repo := postgres.TaskRepository ilike)). simpl.
  destruct (postgres.GetByID taskID w) as [[task|e] w1] eqn:Hget;
    pose proof (GetByID_keeps_rows _ _ _ _ Hget) as Hrows; simpl;
    [|by rewrite Hrows].
  destruct (bool_decide (Task.UserID task = userID)) eqn:Hown; simpl;
    [|by rewrite Hrows].
  rewrite bool_decide_not, Hown. simpl. apply bool_decide_eq_true in Hown.
  assert (Hfound : task ∈ db_tasks (db w) /\ Task.ID task = taskID).
  { revert Hget. unfold postgres.GetByID. simpl.
    destruct (db_up (db w)); simpl; [|discriminate].
    destruct (find _ _) as [x|] eqn:Hf; [|discriminate].
    intros [= -> _]. apply find_holds in Hf as [Hid%bool_decide_eq_true Hin]. done. }
  destruct Hfound as [Hin Hid].
  unfold postgres.Delete. simpl. destruct (db_up (db w1)); simpl; [|by rewrite Hrows].
  destruct (negb (existsb _ _)); simpl; rewrite Hrows; [done|].
  split; [by apply filter_keeps_ids_distinct|].
  intros r Hr Hrin. apply list_elem_of_filter. split; [|done].
  intros Heq. apply Hr. rewrite <- Hown. f_equal.
  apply (same_id_same_row (db_tasks (db w))); congruence.
Qed.

Lemma delete_each_spares_other_owners
    (ilike : string -> string -> bool) (userID : string) (tasks : list Task.t) (w : World) :
  Forall (fun task => Task.UserID task = userID) tasks ->
  NoDup (ids w) ->
  let w' := snd (worker.delete_each (repo := postgres.TaskRepository ilike) tasks w) in
  fst (worker.delete_each (repo := postgres.TaskRepository ilike) tasks w) = Ok tt
  /\ NoDup (ids w')
  /\ (forall r, Task.UserID r <> userID -> r ∈ db_tasks (db w) -> r ∈ db_tasks (db w')).
Proof.
  intros Hall. revert w. induction Hall as [|task tasks Hu _ IH]; intros w Hnd; simpl.
  - by unfold ret.
  - unfold bind.
    destruct (service.Delete (Task.ID task) (Task.UserID task) w) as [r1 w1] eqn:Hdel.
    destruct (Delete_spares_other_owners ilike (Task.ID task) (Task.UserID task) w Hnd)
      as [Hnd1 Hkeep1].
    rewrite Hdel in Hnd1, Hkeep1. simpl in Hnd1, Hkeep1.
    destruct (IH w1 Hnd1) as (Hok & Hnd' & Hkeep').
    split; [done|]. split; [done|].
    intros r Hr Hin. apply Hkeep'; [done|]. apply Hkeep1; [congruence|done].
Qed.

(** What the expiry sweep never does: with distinct ids in the store, no
    task whose owner id is not empty is deleted by a run of
    cleanupExpiredTasks, however long ago it was due. *)
Theorem cleanupExpiredTasks_spares_every_owned_task
    (ilike : string -> string -> bool) (w : World) (task : Task.t) :
  NoDup (ids w) ->
  Task.UserID task <> "" ->
  task ∈ db_tasks (db w) ->
  task ∈ db_tasks (db (snd (worker.cleanupExpiredTasks
                              (repo := postgres.TaskRepository ilike) w))).
Proof.
  intros Hnd Hu Hin. unfold worker.cleanupExpiredTasks, try, bind, fail. simpl.
  unfold service.GetAll. simpl.
  destruct (postgres.GetAll ilike _ _) as [[tasks|e] w1] eqn:Hq;
    pose proof (GetAll_keeps_cache_and_clock _ _ _ _ _ Hq) as (_ & _ & _ & Hrows & _);
    simpl in *; [|by rewrite Hrows].
  pose proof (sweep_fetches ilike _ _ _ _ Hq) as Hall.
  destruct (delete_each_spares_other_owners ilike "" tasks w1) as (_ & _ & Hkeep).
  - eapply Forall_impl; [exact Hall|]. by intros t [Ht _].
  - unfold ids. by rewrite Hrows.
  - apply Hkeep; [done|]. by rewrite Hrows.
Qed.

Lemma cleanupExpiredTasks_spares_every_owned_task_witness :
  scenario.due_10_days_ago
  ∈ db_tasks (db (snd (worker.cleanupExpiredTasks (repo := scenario.repo) scenario.backlog))).
Proof.
  apply (cleanupExpiredTasks_spares_every_owned_task scenario.ilike scenario.backlog).
  - unfold ids. simpl. apply NoDup_cons. split; [|apply NoDup_singleton].
    intros Hin%list_elem_of_singleton. discriminate Hin.
  - discriminate.
  - simpl. apply list_elem_of_here.
Defined.

Section JobFacts.
Context {repo : repository.TaskRepository} {cache : repository.AnalyticsCache}.

Lemma delete_each_ok (tasks : list Task.t) (w : World) :
  fst (worker.delete_each tasks w) = Ok tt.
Proof.
  revert w. induction tasks as [|task tasks IH]; intros w; simpl; [done|].
  unfold bind. destruct (service.Delete _ _ w) as [r w1]. apply IH.
Qed.

Lemma refresh_ok (userID period : string) (w : World) :
  fst (worker.refresh userID period w) = Ok tt.
Proof.
  rewrite refresh_run. by destruct (service.GetUserAnalytics userID period w) as [[a|e] w1].
Qed.

Lemma refresh_users_ok (users : list string) (w : World) :
  fst (worker.refresh_users users w) = Ok tt.
Proof.
  revert w. induction users as [|u users IH]; intros w; simpl; [done|].
  unfold bind.
  destruct (worker.refresh u "day" w) as [r1 w1].
  destruct (worker.refresh u "week" w1) as [r2 w2].
  destruct (worker.refresh u "month" w2) as [r3 w3]. simpl. apply IH.
Qed.
End JobFacts.

(** Both background jobs report the failure of their opening query and
    nothing else: cleanupExpiredTasks returns the error of the task query and
    generateAnalytics the error of GetActiveUsers, and once that query has
    succeeded either job returns nil, whatever happens to the single deletes
    or to the single refreshes. *)
Theorem background_jobs_report_only_their_query
    (repo : repository.TaskRepository) (cache : repository.AnalyticsCache) (w : World) :
  match repository.GetAll
          (TaskFilters.mk "" "" (Some (AddDate (clock w (ticks w)) (-7))) "" "")
          (snd (time_Now w)) with
  | (Err e, w1) => worker.cleanupExpiredTasks w = (Err e, w1)
  | (Ok _, _) => fst (worker.cleanupExpiredTasks w) = Ok tt
  end
  /\ match service.GetActiveUsers w with
     | (Err e, w1) => worker.generateAnalytics w = (Err e, w1)
     | (Ok _, _) => fst (worker.generateAnalytics w) = Ok tt
     end.
Proof.
  split.
  - unfold worker.cleanupExpiredTasks, service.GetAll, try, bind, fail. simpl.
    destruct (repository.GetAll _ _) as [[tasks|e] w1]; [|done].
    apply delete_each_ok.
  - unfold worker.generateAnalytics, try, bind, fail.
    destruct (service.GetActiveUsers w) as [[users|e] w1]; [|done].
    apply refresh_users_ok.
Qed.

Lemma compute_keeps_store (period : string) (tasks : list Task.t) (w w' : World)
    (r : result Analytics.t) :
  service.compute period tasks w = (r, w') -> db w' = db w /\ redis w' = redis w.
Proof.
  destruct (compute_spec period tasks w) as (c & w0 & -> & Hd & Hr & _).
  by intros [= _ <-].
Qed.

(** a refresh over the PostgreSQL store and the Redis cache leaves the rows
    of the store and the state of its connection as they were *)
Lemma refresh_keeps_rows
    (ilike : string -> string -> bool) (userID period : string) (w : World) :
  let w' := snd (worker.refresh (repo := postgres.TaskRepository ilike)
                   (cache := cache.RedisCache) userID period w) in
  db_tasks (db w') = db_tasks (db w) /\ db_up (db w') = db_up (db w).
Proof.
  assert (Hset : forall u p a w0,
            db (store_snapshot (cache := cache.RedisCache) u p a w0) = db w0).
  { intros u p a w0. unfold store_snapshot. simpl. unfold cache.SetUserAnalytics. simpl.
    by destruct (redis_up (redis w0)). }
  rewrite refresh_run, GetUserAnalytics_run. simpl.
  assert (Hget : snd (cache.GetUserAnalytics userID period w) = w).
  { unfold cache.GetUserAnalytics. destruct (negb _); [done|].
    destruct (_ !! _) as [[c e]|]; [|done]. by destruct (_ <? _). }
  destruct (cache.GetUserAnalytics userID period w) as [[[c|]|e] w1];
    simpl in Hget; subst w1; simpl; rewrite ?Hset; try done;
    (destruct (postgres.GetAll ilike _ w) as [[tasks|e'] w2] eqn:Hq;
     apply GetAll_keeps_cache_and_clock in Hq as (_ & _ & _ & Hrows & Hup);
     [|done];
     destruct (service.compute period tasks w2) as [[a|e''] w3] eqn:Hc;
     apply compute_keeps_store in Hc as [Hd _]; simpl;
     rewrite ?Hset, Hd; done).
Qed.

(** What the analytics refresh never does: over the PostgreSQL store and the
    Redis cache a run of generateAnalytics leaves every row of the task table
    as it was. *)
Theorem generateAnalytics_keeps_the_rows
    (ilike : string -> string -> bool) (w : World) :
  db_tasks (db (snd (worker.generateAnalytics (repo := postgres.TaskRepository ilike)
                       (cache := cache.RedisCache) w)))
  = db_tasks (db w).
Proof.
  assert (Husers : forall users w0,
    db_tasks (db (snd (worker.refresh_users (repo := postgres.TaskRepository ilike)
                         (cache := cache.RedisCache) users w0))) = db_tasks (db w0)).
  { induction users as [|u users IH]; intros w0; simpl; [done|]. unfold bind.
    pose proof (refresh_keeps_rows ilike u "day" w0) as [H1 _].
    destruct (worker.refresh u "day" w0) as [r1 w1]. simpl in H1.
    pose proof (refresh_keeps_rows ilike u "week" w1) as [H2 _].
    destruct (worker.refresh u "week" w1) as [r2 w2]. simpl in H2.
    pose proof (refresh_keeps_rows ilike u "month" w2) as [H3 _].
    destruct (worker.refresh u "month" w2) as [r3 w3]. simpl in H3. simpl.
    rewrite IH. congruence. }
  unfold worker.generateAnalytics, service.GetActiveUsers, try, bind, ret, fail. simpl.
  destruct (postgres.GetAll ilike TaskFilters.zero w) as [[tasks|e] w1] eqn:Hq;
    apply GetAll_keeps_cache_and_clock in Hq as (_ & _ & _ & Hrows & _); [|done].
  by rewrite Husers.
Qed.

(** ** The handlers *)

Lemma isValidPeriod_spec (period : string) :
  handler.isValidPeriod period = true <-> period ∈ worker.periods.
Proof.
  unfold handler.isValidPeriod, worker.periods.
  rewrite !lookup_insert, lookup_singleton.
  repeat case_decide; subst; simpl.
  - split; [intros _|done]. apply list_elem_of_here.
  - split; [intros _|done]. apply list_elem_of_further, list_elem_of_here.
  - split; [intros _|done].
    apply list_elem_of_further, list_elem_of_further, list_elem_of_here.
  - split; [done|]. intros Hin.
    repeat (apply elem_of_cons in Hin as [?|Hin]; [congruence|]).
    by apply elem_of_nil in Hin.
Qed.

(** GET /tasks/analytics: only day, week and month are periods; a request
    without period is served as the one for week; a request with any other
    period is answered 400 before the cache or the store is touched. *)
Theorem GetAnalytics_checks_the_period
    (repo : repository.TaskRepository) (cache : repository.AnalyticsCache)
    (userID : string) (period : string) (param : string -> string)
    (sent : option Task.t) (w : World) :
  let request p :=
    handler.mkContext (Some userID) ""
      (fun name => if bool_decide (name = "period") then p else param name) sent in
  (handler.isValidPeriod period = true <-> period ∈ ["day"; "week"; "month"])
  /\ handler.GetAnalytics (request "") w = handler.GetAnalytics (request "week") w
  /\ (if handler.isValidPeriod period || bool_decide (period = "") then True
      else handler.GetAnalytics (request period) w
           = ((handler.StatusBadRequest, inl (handler.H_error "Invalid period")), w)).
Proof.
  intros request. split; [apply isValidPeriod_spec|]. split; [reflexivity|].
  destruct (handler.isValidPeriod period) eqn:Hv; [done|].
  destruct (bool_decide (period = "")) eqn:He; [done|]. simpl.
  unfold handler.GetAnalytics. simpl. by rewrite He, Hv.
Qed.

(** PUT /tasks/{id} reads five fields of the body: title, description,
    status, priority and due date. The id, owner and the three timestamps that
    a body names make no difference to the answer nor to what is stored; the
    task updated is the one of the path. *)
Theorem UpdateTask_reads_five_fields_of_the_body
    (repo : repository.TaskRepository)
    (user : option string) (taskID : string) (param : string -> string)
    (title description status priority : string) (dueDate : Z)
    (id id' owner owner' : string) (created created' updated updated' : Z)
    (completed completed' : option Z) (w : World) :
  handler.UpdateTask
    (handler.mkContext user taskID param
       (Some (Task.mk id title description status priority owner dueDate
                      created updated completed))) w
  = handler.UpdateTask
      (handler.mkContext user taskID param
         (Some (Task.mk id' title description status priority owner' dueDate
                        created' updated' completed'))) w.
Proof.
  unfold handler.UpdateTask. simpl.
  destruct user as [userID|]; [|done].
  destruct (bool_decide (taskID = "")); [done|].
  unfold service.UpdateUserTask, service.Update. simpl.
  unfold bind. destruct (repository.GetByID taskID _) as [[existing|e] w1]; [|done].
  destruct (bool_decide (Task.UserID existing <> userID)); done.
Qed.

Lemma patch_stamp (task existing m : Task.t) (w w' : World) :
  service.patch task existing w = (Ok m, w') ->
  Task.UpdatedAt m = clock w (ticks w) \/ Task.UpdatedAt m = clock w (S (ticks w)).
Proof.
  unfold service.patch.
  destruct task as [i ti de st pr us du cr up co].
  destruct existing as [i' ti' de' st' pr' us' du' cr' up' co'].
  simpl.
  repeat (rewrite ?bool_decide_not; simpl;
          match goal with
          | |- context [bool_decide (?a = ?b)] => destruct (bool_decide (a = b))
          | |- context [service.not_completed ?c] => destruct (service.not_completed c)
          | |- context [?a =? 0] => destruct (a =? 0)
          end; run);
    intros [= <- _]; simpl; first [left; reflexivity | right; reflexivity].
Qed.

(** Every successful update stamps the row: the updated timestamp found in
    the store afterwards is the one returned to the caller, and it is a clock
    reading taken during the update, whatever timestamp the request
    carried. *)
Theorem Update_stamps_the_row
    (ilike : string -> string -> bool) (w w' : World) (userID : string)
    (req existing m : Task.t) :
  db_up (db w) = true ->
  find (fun r => bool_decide (Task.ID r = Task.ID req)) (db_tasks (db w)) = Some existing ->
  Task.UserID existing = userID ->
  service.UpdateUserTask (repo := postgres.TaskRepository ilike) userID req w = (Ok m, w') ->
  exists stored : Task.t,
    find (fun r => bool_decide (Task.ID r = Task.ID req)) (db_tasks (db w')) = Some stored
    /\ Task.UpdatedAt stored = Task.UpdatedAt m
    /\ (Task.UpdatedAt m = clock w (ticks w) \/ Task.UpdatedAt m = clock w (S (ticks w))).
Proof.
  intros Hup Hfind Hown Hrun.
  destruct (Update_round_trip ilike _ _ _ _ _ _ Hup Hfind Hown Hrun)
    as ((w0 & Hp) & _ & _ & Hfind').
  exists (postgres.updated_row m existing). split; [done|]. split; [done|].
  exact (patch_stamp _ _ _ _ _ Hp).
Qed.

Lemma Update_stamps_the_row_witness :
  exists stored : Task.t,
    find (fun r => bool_decide (Task.ID r = "t1"))
      (db_tasks (db (snd (service.UpdateUserTask (repo := scenario.repo) "u1"
                            scenario.retitle scenario.initial)))) = Some stored
    /\ Task.UpdatedAt stored = scenario.start.
Proof.
  pose proof (run_result
                (service.UpdateUserTask (repo := scenario.repo) "u1" scenario.retitle
                   scenario.initial)
                (Task.mk "t1" "Buy oat milk" "" StatusPending PriorityLow "u1"
                   (scenario.start + 2 * day) (scenario.start - day) scenario.start None)
                ltac:(vm_compute; reflexivity)) as Hrun.
  destruct (Update_stamps_the_row scenario.ilike scenario.initial _ "u1"
              scenario.retitle scenario.errand _ eq_refl eq_refl eq_refl Hrun)
    as (stored & Hfind & Hst & _).
  exists stored. split; [exact Hfind|]. rewrite Hst. reflexivity.
Defined.

Lemma Create_without_title (repo : repository.TaskRepository) (task : Task.t) (w : World) :
  Task.Title task = "" -> service.Create task w = (Err ErrInvalidTaskData, w).
Proof.
  intros Hti. unfold service.Create. by rewrite bool_decide_eq_true_2.
Qed.

(** POST /tasks over the PostgreSQL store. The one answer that carries a task
    is 201: that task has a title, belongs to the authenticated user whatever
    owner the body named, keeps the id of the body or, when the body has
    none, takes the next UUID, is stamped with one clock reading as creation
    and update time, and is the single row added to the store. Every other
    answer is 401, 400 or 500 and leaves the rows as they were. *)
Theorem CreateTask_answers
    (ilike : string -> string -> bool) (c : handler.Context) (w : World) :
  match handler.CreateTask (repo := postgres.TaskRepository ilike) c w with
  | ((code, handler.J_task created), w') =>
      code = handler.StatusCreated
      /\ handler.user_id c = Some (Task.UserID created)
      /\ Task.Title created <> ""
      /\ (exists task, handler.Body_task c = Some task
                       /\ Task.Title created = Task.Title task
                       /\ Task.ID created = (if bool_decide (Task.ID task = "")
                                            then uuids w (drawn w) else Task.ID task))
      /\ Task.CreatedAt created = Task.UpdatedAt created
      /\ db_tasks (db w') = (db_tasks (db w) ++ [Task.set_CompletedAt None created])%list
  | ((code, _), w') =>
      code ∈ [handler.StatusUnauthorized; handler.StatusBadRequest;
              handler.StatusInternalServerError]
      /\ db_tasks (db w') = db_tasks (db w)
  end.
Proof.
  set (pg := postgres.TaskRepository ilike).
  unfold handler.CreateTask. status_codes.
  destruct (handler.user_id c) as [userID|]; [|split; [in_list|done]].
  destruct (handler.Body_task c) as [task|]; [|split; [in_list|done]].
  set (prepared := if bool_decide (Task.ID task = "") then _ else _).
  assert (Hprep : exists task0 w0,
            prepared = (task0, w0)
            /\ db w0 = db w
            /\ Task.Title task0 = Task.Title task
            /\ Task.ID task0 = (if bool_decide (Task.ID task = "")
                                then uuids w (drawn w) else Task.ID task)).
  { subst prepared. destruct (bool_decide (Task.ID task = "")); simpl.
    - do 2 eexists. split; [reflexivity|]. by destruct task.
    - by exists task, w. }
  destruct Hprep as (task0 & w0 & -> & Hdb & Hti & Hid).
  unfold service.CreateTask.
  set (stamped := Task.set_UserID userID _).
  assert (Hst : Task.Title stamped = Task.Title task0 /\ Task.ID stamped = Task.ID task0
                /\ Task.UserID stamped = userID
                /\ Task.CreatedAt stamped = Task.UpdatedAt stamped)
    by (subst stamped; by destruct task0).
  destruct Hst as (Hsti & Hsid & Hsu & Hsc).
  destruct (decide (Task.Title stamped = "")) as [Hempty|Hfull].
  - rewrite (Create_without_title pg _ _ Hempty). simpl.
    split; [in_list|]. by rewrite Hdb.
  - destruct (Create_prepared pg stamped (snd (time_Now w0)) Hfull)
      as (t & w1 & -> & Hdb1 & Hi & Hu & Ht & _ & _ & _ & _ & Hcr & Hup).
    pose proof (Create_inserts_row t w1) as Hc. simpl.
    destruct (postgres.Create t w1) as [[[]|e] w2].
    + destruct Hc as [_ Hrows]. simpl in Hdb1.
      rewrite Hrows, Hdb1, Hdb.
      repeat split; try congruence.
      exists task. repeat split; congruence.
    + simpl in Hdb1.
      destruct e; simpl; (split; [in_list|congruence]).
Qed.

(** GET /tasks over the PostgreSQL store. A list of tasks is only sent with
    200, for an authenticated user: every task of it belongs to that user, has
    the status and the priority the query asks for when it asks for one, and
    the list comes in the order of the ORDER BY clause. Every other answer is
    401, 400 (a due_date that does not parse) or 500, and no answer changes a
    row. *)
Theorem GetTasks_answers
    (ilike : string -> string -> bool) (parseRFC3339 : string -> option Z)
    (c : handler.Context) (w : World) :
  match handler.GetTasks (repo := postgres.TaskRepository ilike) parseRFC3339 c w with
  | ((code, handler.J_tasks tasks), w') =>
      code = handler.StatusOK
      /\ db_tasks (db w') = db_tasks (db w)
      /\ StronglySorted ordered_before tasks
      /\ Forall (fun task =>
                   handler.user_id c = Some (Task.UserID task)
                   /\ (handler.Query c "status" = ""
                       \/ Task.Status task = handler.Query c "status")
                   /\ (handler.Query c "priority" = ""
                       \/ Task.Priority task = handler.Query c "priority")) tasks
  | ((code, _), w') =>
      code ∈ [handler.StatusUnauthorized; handler.StatusBadRequest;
              handler.StatusInternalServerError]
      /\ db_tasks (db w') = db_tasks (db w)
  end.
Proof.
  unfold handler.GetTasks. status_codes.
  destruct (handler.user_id c) as [userID|]; [|split; [in_list|done]].
  destruct (handler.filters_of parseRFC3339 c userID) as [[code answer]|filters] eqn:Hf.
  { revert Hf. unfold handler.filters_of. status_codes.
    destruct (bool_decide _); [|discriminate].
    destruct (parseRFC3339 _); [discriminate|].
    intros [= <- <-]. split; [in_list|done]. }
  assert (Hfilters : TaskFilters.UserID filters = userID
                     /\ TaskFilters.Status filters = handler.Query c "status"
                     /\ TaskFilters.Priority filters = handler.Query c "priority").
  { revert Hf. unfold handler.filters_of.
    destruct (bool_decide _); [destruct (parseRFC3339 _); [|discriminate]|];
      by intros [= <-]. }
  destruct Hfilters as (Hu & Hs & Hp).
  unfold service.GetUserTasks, service.GetAll. simpl.
  destruct (postgres.GetAll ilike filters w) as [[tasks|e] w1] eqn:Hq;
    pose proof (GetAll_keeps_cache_and_clock _ _ _ _ _ Hq) as (_ & _ & _ & Hrows & _);
    [|split; [in_list|done]].
  split; [done|]. split; [done|]. split.
  - revert Hq. unfold postgres.GetAll. simpl. destruct (db_up (db w)); simpl; [|done].
    destruct (postgres.enum_parameters filters); simpl; [|done].
    intros [= <- _]. apply merge_sort_ordered.
  - apply Forall_forall. intros r Hr.
    apply (GetAll_elem ilike _ _ _ _ Hq) in Hr as [_ Hr].
    revert Hr. unfold postgres.where_clause. rewrite !andb_true_iff, Hu, Hs, Hp.
    intros [[[[Hru Hrs] Hrp] _] _]. apply bool_decide_eq_true in Hru.
    split; [by rewrite Hru|]. split.
    + destruct (bool_decide (handler.Query c "status" = "")) eqn:Hb.
      * left. by apply bool_decide_eq_true in Hb.
      * right. by apply bool_decide_eq_true in Hrs.
    + destruct (bool_decide (handler.Query c "priority" = "")) eqn:Hb.
      * left. by apply bool_decide_eq_true in Hb.
      * right. by apply bool_decide_eq_true in Hrp.
Qed.

Lemma filter_app_owned (userID : string) (rows added : list Task.t) :
  Forall (fun row => Task.UserID row = userID) added ->
  filter (fun r => Task.UserID r = userID) (rows ++ added)%list
  = (filter (fun r => Task.UserID r = userID) rows ++ added)%list.
Proof.
  intros Hall. rewrite filter_app. f_equal.
  induction Hall as [|x l Hx _ IH]; [done|].
  rewrite filter_cons, decide_True by done. by rewrite IH.
Qed.

Lemma import_one_keeps_connection
    (ilike : string -> string -> bool) (userID : string) (task : Task.t) (w : World) :
  db_up (db (snd (service.import_one (repo := postgres.TaskRepository ilike)
                    userID task w))) = db_up (db w).
Proof.
  unfold service.import_one, uuid_New, time_Now.
  destruct task as [i ti de st pr us du cr up co].
  destruct w as [[dbup calls rows] rd ck tk uu dr].
  unfold try, bind, ret, fail. cbn.
  destruct (bool_decide (st = "")); cbn;
    destruct (bool_decide (pr = "")); cbn;
    destruct (du =? 0); cbn;
    unfold postgres.Create; cbn;
    (destruct dbup; cbn;
     [ match goal with
       | |- context [if ?b then _ else _] => destruct b
       end |]); reflexivity.
Qed.

Lemma Import_keeps_connection
    (ilike : string -> string -> bool) (userID : string) (payload : list Task.t) (w : World) :
  db_up (db (snd (service.Import (repo := postgres.TaskRepository ilike)
                    userID payload w))) = db_up (db w).
Proof.
  revert w. induction payload as [|task rest IH]; intros w; simpl; [done|].
  unfold try, bind.
  pose proof (import_one_keeps_connection ilike userID task w) as Hone.
  destruct (service.import_one userID task w) as [[[]|e] w1]; simpl in *.
  - by rewrite IH.
  - done.
Qed.

(** Import, then export: after a successful ImportTasks of a user, what
    ExportUserTasks returns to that user is, up to order, what was there to
    export before together with one new task for each task of the payload,
    built as Import builds it. *)
Theorem ImportTasks_then_ExportUserTasks
    (ilike : string -> string -> bool) (userID : string) (payload : list Task.t) (w : World) :
  db_up (db w) = true ->
  let pg := postgres.TaskRepository ilike in
  match service.ImportTasks (repo := pg) userID payload w with
  | (Ok _, w') =>
      exists (before after added : list Task.t),
        fst (service.ExportUserTasks (repo := pg) userID w) = Ok before
        /\ fst (service.ExportUserTasks (repo := pg) userID w') = Ok after
        /\ after ≡ₚ (before ++ added)%list
        /\ Forall2 (imported_as w userID) payload added
  | (Err _, w') => True
  end.
Proof.
  intros Hup pg.
  destruct (Import_spec ilike userID payload w)
    as (r & w' & added & Hrun & _ & _ & Hrows & _ & Hall & Hlen).
  unfold service.ImportTasks. fold pg in Hrun. rewrite Hrun.
  destruct r as [[]|e]; [|done].
  rewrite Hlen, firstn_all in Hall.
  assert (Hup' : db_up (db w') = true).
  { pose proof (Import_keeps_connection ilike userID payload w) as Hk.
    fold pg in Hk. rewrite Hrun in Hk. simpl in Hk. congruence. }
  assert (Hexp : forall w0, db_up (db w0) = true ->
            exists tasks, fst (service.ExportUserTasks (repo := pg) userID w0) = Ok tasks
                          /\ tasks ≡ₚ filter (fun r => Task.UserID r = userID)
                                         (db_tasks (db w0))).
  { intros w0 Hup0. unfold service.ExportUserTasks, service.Export. simpl.
    unfold postgres.GetAll. simpl. rewrite Hup0. simpl. eexists. split; [reflexivity|].
    rewrite merge_sort_Permutation.
    erewrite list_filter_iff; [done|]. intros x.
    unfold postgres.where_clause. simpl.
    by rewrite !andb_true_r, Is_true_true, bool_decide_eq_true. }
  destruct (Hexp w Hup) as (before & Hb & Hpb).
  destruct (Hexp w' Hup') as (after & Ha & Hpa).
  exists before, after, added. repeat split; try done.
  rewrite Hpa, Hrows, Hpb. rewrite filter_app_owned; [done|].
  clear -Hall. induction Hall as [|p row ps rows' Has _ IH]; constructor; [|done].
  by destruct Has.
Qed.

Lemma ImportTasks_then_ExportUserTasks_witness :
  exists after : list Task.t,
    fst (service.ExportUserTasks (repo := scenario.repo) "u1"
           (snd (service.ImportTasks (repo := scenario.repo) "u1" [scenario.forged]
                   scenario.initial))) = Ok after
    /\ length after = 2%nat.
Proof.
  pose proof (ImportTasks_then_ExportUserTasks scenario.ilike "u1" [scenario.forged]
                scenario.initial eq_refl) as H.
  cbv zeta in H.
  pose proof (run_result (service.ImportTasks (repo := scenario.repo) "u1"
                            [scenario.forged] scenario.initial) tt
                ltac:(vm_compute; reflexivity)) as Hrun.
  unfold scenario.repo in Hrun. rewrite Hrun in H.
  destruct H as (before & after & added & Hb & Ha & Hperm & Hall).
  exists after. split; [exact Ha|].
  rewrite Hperm, length_app.
  apply Forall2_length in Hall. rewrite <- Hall.
  assert (Hbefore : before = [scenario.errand]).
  { assert (Hv : fst (service.ExportUserTasks (repo := postgres.TaskRepository scenario.ilike)
                        "u1" scenario.initial) = Ok [scenario.errand])
      by (vm_compute; reflexivity).
    rewrite Hv in Hb. by injection Hb. }
  by rewrite Hbefore.
Defined.
